(** * split_csv_folder_90_10: a 90/10 split of a folder of CSV files

    A shallow embedding of [datasets/Full datasets/split_csv_folder_90_10.py]
    and the properties of its cutoff computation, cutoff location, file
    splitting and orchestration.

    - Python's [int] is unbounded and is modelled by [Z].
    - A Python [float] is an IEEE 754 binary64 number.  The only float the
      script builds is the quotient [(9 * total) / 10] of two integers, which
      Python rounds correctly (to nearest, ties to even) from the exact
      quotient; it is modelled by the dyadic rational [m * 2^e] it denotes,
      and [math.floor] and [math.ceil] are exact on it.
    - A CSV file is the list of records that [csv.reader] yields from it and
      that [csv.writer] writes to it; a record is a list of strings.
    - The file system is the input folder and the two output folders of its
      parent, each a finite map from file names to files.
    - Exceptions, [SystemExit] among them, are values of an error monad; the
      console output is left out, and [main] returns what its summary
      prints. *)

From Stdlib Require Import ZArith QArith Qround Lia Ascii String.
From stdpp Require Import gmap strings list fin_maps sorting.

Local Open Scope Z_scope.

(** ** Exceptions and the error monad *)

Inductive exn : Type :=
  | OverflowError
  | ZeroDivisionError
  | IndexError
  | FileNotFoundError
  | SystemExit (msg : string).

Inductive res (A : Type) : Type :=
  | Ok (a : A)
  | Raise (e : exn).
Arguments Ok {A} a.
Arguments Raise {A} e.

#[global] Instance res_ret : MRet res := @Ok.
#[global] Instance res_bind : MBind res := fun A B k x =>
  match x with
  | Ok a => k a
  | Raise e => Raise e
  end.

(** ** Binary64 quotients of integers *)

Module Float.

Definition MAX_EXP : Z := 1024.
(** The exponent of the smallest positive (subnormal) double, 2^-1074. *)
Definition MIN_ULP_EXP : Z := -1074.

(** The double of value [mant * 2^expo], with [|mant| <= 2^53]. *)
Record float : Type := { mant : Z; expo : Z }.

(** The integer nearest to [n / d] for [0 < d], ties to the even one. *)
Definition round_half_even (n d : Z) : Z :=
  let q := n / d in
  let r := n mod d in
  if 2 * r <? d then q
  else if d <? 2 * r then q + 1
  else if Z.even q then q else q + 1.

(** [2^e] split into an integer numerator and denominator scale. *)
Definition up (e : Z) : Z := 2 ^ Z.max 0 e.
Definition down (e : Z) : Z := 2 ^ Z.max 0 (- e).

(** The exponent of the unit in the last place of the quotient [a / b] of
    two positive integers: the [e] with [2^52 <= a / (b * 2^e) < 2^53],
    and no less than the subnormal exponent. *)
Definition ulp_exp (a b : Z) : Z :=
  let d := Z.log2 a - Z.log2 b in
  let e := if b * up d <=? a * down d then d - 52 else d - 53 in
  Z.max e MIN_ULP_EXP.

(** [a / b] on Python integers: the exact quotient correctly rounded to
    a double; [ZeroDivisionError] for a zero divisor and [OverflowError]
    when the rounded quotient is beyond the largest double. *)
Definition int_true_divide (a b : Z) : res float :=
  if b =? 0 then Raise ZeroDivisionError
  else if a =? 0 then Ok {| mant := 0; expo := 0 |}
  else
    let e := ulp_exp (Z.abs a) (Z.abs b) in
    let m := round_half_even (Z.abs a * down e) (Z.abs b * up e) in
    if (0 <=? e) && (2 ^ MAX_EXP <=? m * 2 ^ e) then Raise OverflowError
    else Ok {| mant := Z.sgn a * Z.sgn b * m; expo := e |}.

(** [math.floor] and [math.ceil] of a finite double: exact integers. *)
Definition floor (x : float) : Z :=
  if 0 <=? expo x then mant x * 2 ^ expo x
  else mant x / 2 ^ (- expo x).

Definition ceil (x : float) : Z :=
  if 0 <=? expo x then mant x * 2 ^ expo x
  else - ((- mant x) / 2 ^ (- expo x)).

End Float.

(** ** The cutoff *)

(** [compute_cutoff(total)], with the module constant
    [USE_CEIL_FOR_CUTOFF] as a parameter. *)
Definition compute_cutoff (USE_CEIL_FOR_CUTOFF : bool) (total : Z) : res Z :=
  if total <=? 0 then Ok 0
  else
    raw ← Float.int_true_divide (9 * total) 10;
    Ok (if USE_CEIL_FOR_CUTOFF then Float.ceil raw else Float.floor raw).


(** ** The data model *)

(** A file of the input folder is named by its file name; a CSV file holds
    the records that [csv.reader] yields and [csv.writer] takes. *)
Abbreviation Path := string (only parsing).
Abbreviation Row := (list string) (only parsing).

Record CsvInfo : Type := {
  path : Path;
  data_line_count : Z
}.

(** The sum of the data line counts of [infos]. *)
Definition total_lines (infos : list CsvInfo) : Z :=
  foldr (fun info acc => data_line_count info + acc) 0 infos.

(** The cumulative count through the first [k] files. *)
Definition cumulative (infos : list CsvInfo) (k : nat) : Z :=
  total_lines (take k infos).

(** Python's [l[:j]] and [l[j:]]: a negative bound counts from the end, and
    every bound is clipped to the list. *)
Definition slice_bound {A : Type} (l : list A) (j : Z) : nat :=
  Z.to_nat (if j <? 0 then Z.max 0 (Z.of_nat (length l) + j) else j).

Definition slice_to {A : Type} (l : list A) (j : Z) : list A :=
  take (slice_bound l j) l.

Definition slice_from {A : Type} (l : list A) (j : Z) : list A :=
  drop (slice_bound l j) l.

(** ** Counting *)

(** The count that [count_data_lines] returns for a file of records [rows]. *)
Definition count_rows (rows : list Row) (assume_header : bool) : Z :=
  let row_count := Z.of_nat (length rows) in
  if assume_header && (0 <? row_count) then row_count - 1 else row_count.

(** ** Locating the cutoff *)

(** The loop of [find_cutoff_location] over the files from index [i] on;
    [None] when the loop ends without returning. *)
Fixpoint find_cutoff_loop (infos : list CsvInfo) (i running cutoff : Z)
  : option (Z * Z) :=
  match infos with
  | [] => None
  | info :: rest =>
      if running + data_line_count info >=? cutoff then
        let line_in_file := cutoff - running in
        Some (i, line_in_file)
      else find_cutoff_loop rest (i + 1) (running + data_line_count info) cutoff
  end.

Definition find_cutoff_location (infos : list CsvInfo) (cutoff : Z)
  : res (Z * Z) :=
  if cutoff <=? 0 then Ok (-1, -1)
  else
    match find_cutoff_loop infos 0 0 cutoff with
    | Some loc => Ok loc
    | None =>
        (* infos[-1] raises IndexError on an empty list *)
        match last infos with
        | Some info => Ok (Z.of_nat (length infos) - 1, data_line_count info)
        | None => Raise IndexError
        end
    end.

(** ** Splitting the cutoff file *)

(** The header and the data rows of a file. *)
Definition header_of (rows : list Row) (assume_header : bool) : option Row :=
  if assume_header then head rows else None.

Definition data_rows_of (rows : list Row) (assume_header : bool) : list Row :=
  match rows with
  | _ :: rest => if assume_header then rest else rows
  | [] => rows
  end.

(** The rows before the cutoff line and those at or after it. *)
Definition clamp_line (n cutoff_line_in_file : Z) : Z :=
  Z.max 1 (Z.min cutoff_line_in_file (n + 1)).

Definition split_rows (data_rows : list Row) (cutoff_line_in_file : Z)
  : list Row * list Row :=
  let n := Z.of_nat (length data_rows) in
  let k := clamp_line n cutoff_line_in_file in
  let before := slice_to data_rows (Z.max 0 (k - 1)) in
  let after := slice_from data_rows (Z.max 0 (k - 1)) in
  (before, after).

(** The records [write_csv] writes. *)
Definition csv_records (header_row : option Row) (data : list Row) : list Row :=
  match header_row with
  | Some h => h :: data
  | None => data
  end.

Definition write_csv (dir : gmap string (list Row)) (p : Path)
    (header_row : option Row) (data : list Row) : gmap string (list Row) :=
  <[p := csv_records header_row data]> dir.

(** [split_cutoff_file] on the folder [dir]: the folder after the two
    writes, and the two counts. *)
Definition split_cutoff_file (dir : gmap string (list Row))
    (cutoff_file out_before out_after : Path) (assume_header : bool)
    (cutoff_line_in_file : Z) : res (gmap string (list Row) * (Z * Z)) :=
  match dir !! cutoff_file with
  | None => Raise FileNotFoundError
  | Some rows =>
      let header := header_of rows assume_header in
      let data_rows := data_rows_of rows assume_header in
      let '(before, after) := split_rows data_rows cutoff_line_in_file in
      let dir := write_csv dir out_before header before in
      let dir := write_csv dir out_after header after in
      Ok (dir, (Z.of_nat (length before), Z.of_nat (length after)))
  end.

(** ** Paths *)

Local Open Scope string_scope.
Local Open Scope list_scope.

(** [name.rfind(".")]: the index of the last dot. *)
Fixpoint rfind_dot (name : string) : option nat :=
  match name with
  | EmptyString => None
  | String c rest =>
      match rfind_dot rest with
      | Some i => Some (S i)
      | None => if Ascii.eqb c "."%char then Some 0%nat else None
      end
  end.

(** Where [pathlib] cuts a file name into stem and suffix: at the last dot,
    when it is neither the first nor the last character; otherwise the whole
    name is the stem. *)
Definition suffix_start (name : string) : nat :=
  match rfind_dot name with
  | Some i =>
      if (0 <? i)%nat && (i <? String.length name - 1)%nat then i
      else String.length name
  | None => String.length name
  end.

Definition stem (name : string) : string :=
  substring 0 (suffix_start name) name.

Definition suffix (name : string) : string :=
  substring (suffix_start name) (String.length name - suffix_start name) name.

Definition lower_ascii (c : ascii) : ascii :=
  let n := nat_of_ascii c in
  if (65 <=? n)%nat && (n <=? 90)%nat then ascii_of_nat (n + 32) else c.

(** [str.lower] on the characters the script compares (ASCII). *)
Fixpoint lower (s : string) : string :=
  match s with
  | EmptyString => EmptyString
  | String c rest => String (lower_ascii c) (lower rest)
  end.

Definition is_csv (name : string) : bool :=
  bool_decide (lower (suffix name) = ".csv").

(** ** The file system *)

(** The regular files of the input folder and of the two output folders of
    its parent, by file name; [None] for a folder that does not exist.  A
    file is held as the records that [csv.reader] yields from it, so every
    file here decodes and parses: the [UnicodeDecodeError] and [csv.Error]
    of a read are not modelled, nor are failures of the operating system.
    The input folder is taken to be neither of the two output folders, so
    the [SameFileError] of copying a file onto itself is not modelled
    either. *)
Record FS : Type := {
  input_folder : option (gmap string (list Row));
  train_dir : option (gmap string (list Row));
  val_dir : option (gmap string (list Row))
}.

Inductive dest : Type := TRAIN_DIR | VAL_DIR.

Definition dest_dir (d : dest) (fs : FS) : option (gmap string (list Row)) :=
  match d with
  | TRAIN_DIR => train_dir fs
  | VAL_DIR => val_dir fs
  end.

Definition set_input (dir : gmap string (list Row)) (fs : FS) : FS :=
  {| input_folder := Some dir; train_dir := train_dir fs; val_dir := val_dir fs |}.

Definition set_dest (d : dest) (dir : gmap string (list Row)) (fs : FS) : FS :=
  match d with
  | TRAIN_DIR =>
      {| input_folder := input_folder fs; train_dir := Some dir; val_dir := val_dir fs |}
  | VAL_DIR =>
      {| input_folder := input_folder fs; train_dir := train_dir fs; val_dir := Some dir |}
  end.

(** Computations on the file system that may raise. *)
Definition M (A : Type) : Type := FS → res A * FS.

#[global] Instance M_ret : MRet M := fun A a fs => (Ok a, fs).
#[global] Instance M_bind : MBind M := fun A B k m fs =>
  match m fs with
  | (Ok a, fs') => k a fs'
  | (Raise e, fs') => (Raise e, fs')
  end.

Definition raise {A : Type} (e : exn) : M A := fun fs => (Raise e, fs).

Definition lift {A : Type} (r : res A) : M A := fun fs => (r, fs).

(** The exits of [main]. *)
Definition ConfigError : exn :=
  SystemExit "[ERROR] INPUT_FOLDER does not exist or is not a directory".
Definition EmptyInputError : exn :=
  SystemExit "[ERROR] No .csv files found".
Definition ZeroRowsError : exn :=
  SystemExit "[ERROR] Total data lines is 0 (nothing to split).".
Definition ZeroCutoffError : exn :=
  SystemExit "[ERROR] Cutoff computed as 0; nothing to split.".

(** ** Helpers of the orchestrator *)

(** The [.csv] files of a folder, sorted by name. *)
Definition list_csv_files (folder : gmap string (list Row)) : list Path :=
  merge_sort String.le (filter (fun p => is_csv p = true) (map_to_list folder).*1).

Definition read_input (p : Path) : M (list Row) := fun fs =>
  match input_folder fs ≫= (.!! p) with
  | Some rows => (Ok rows, fs)
  | None => (Raise FileNotFoundError, fs)
  end.

Definition count_data_lines (csv_path : Path) (assume_header : bool) : M Z :=
  rows ← read_input csv_path;
  mret (count_rows rows assume_header).

Definition ensure_clean_dir (d : dest) : M unit := fun fs =>
  match dest_dir d fs with
  | Some _ => (Ok tt, fs)
  | None => (Ok tt, set_dest d ∅ fs)
  end.

Definition split_file (cutoff_file out_before out_after : Path)
    (assume_header : bool) (cutoff_line_in_file : Z) : M (Z * Z) := fun fs =>
  match input_folder fs with
  | None => (Raise FileNotFoundError, fs)
  | Some dir =>
      match split_cutoff_file dir cutoff_file out_before out_after
              assume_header cutoff_line_in_file with
      | Ok (dir', counts) => (Ok counts, set_input dir' fs)
      | Raise e => (Raise e, fs)
      end
  end.

(** [transfer_file]: copy or move the file [src] of the input folder into
    the folder [d], replacing a file of the same name there. *)
Definition transfer_file (src : Path) (d : dest) (move : bool) : M Path := fun fs =>
  match input_folder fs, dest_dir d fs with
  | Some dir, Some out =>
      match dir !! src with
      | Some rows =>
          let fs := set_dest d (<[src := rows]> out) fs in
          (Ok src, if move then set_input (delete src dir) fs else fs)
      | None => (Raise FileNotFoundError, fs)
      end
  | _, _ => (Raise FileNotFoundError, fs)
  end.

(** The counting loop of [main]. *)
Fixpoint count_all (csv_files : list Path) (assume_header : bool)
  : M (list CsvInfo) :=
  match csv_files with
  | [] => mret []
  | p :: rest =>
      cnt ← count_data_lines p assume_header;
      infos ← count_all rest assume_header;
      mret ({| path := p; data_line_count := cnt |} :: infos)
  end.

(** A transfer loop of [main]: every file goes to [d] and its name is
    appended to [sent]. *)
Fixpoint transfer_all (files : list Path) (d : dest) (move : bool)
    (sent : list string) : M (list string) :=
  match files with
  | [] => mret sent
  | f :: rest =>
      _ ← transfer_file f d move;
      transfer_all rest d move (sent ++ [f])
  end.

(** [infos[i]] for an index [0 <= i]. *)
Definition get_info (infos : list CsvInfo) (i : Z) : res CsvInfo :=
  match infos !! Z.to_nat i with
  | Some info => Ok info
  | None => Raise IndexError
  end.

(** ** The orchestrator *)

(** The module constants. *)
Record Config : Type := {
  ASSUME_HEADER : bool;
  MOVE_FILES : bool;
  USE_CEIL_FOR_CUTOFF : bool
}.

(** What the summary of [main] reports. *)
Record Summary : Type := {
  sum_total_lines : Z;
  sum_cutoff : Z;
  sum_cutoff_file_idx : Z;
  sum_cutoff_file : Path;
  sum_cutoff_line_in_file : Z;
  sum_before_rows : Z;
  sum_after_rows : Z;
  training_sent : list string;
  validation_sent : list string
}.

Definition before_name (cutoff_file : Path) : string :=
  stem cutoff_file +:+ "_before_cutoff.csv".

Definition after_name (cutoff_file : Path) : string :=
  stem cutoff_file +:+ "_at_or_after_cutoff.csv".

(** [main], from the split of the cutoff file on. *)
Definition split_and_transfer (cfg : Config) (infos : list CsvInfo)
    (total cutoff cutoff_file_idx cutoff_line_in_file : Z) : M Summary :=
  cutoff_info ← lift (get_info infos cutoff_file_idx);
  let cutoff_file := path cutoff_info in
  ensure_clean_dir TRAIN_DIR;;
  ensure_clean_dir VAL_DIR;;
  let before_path := before_name cutoff_file in
  let after_path := after_name cutoff_file in
  '(before_rows, after_rows) ←
    split_file cutoff_file before_path after_path (ASSUME_HEADER cfg)
      cutoff_line_in_file;
  let originals_before := path <$> slice_to infos cutoff_file_idx in
  let originals_after := path <$> slice_from infos (cutoff_file_idx + 1) in
  training_sent ← transfer_all originals_before TRAIN_DIR (MOVE_FILES cfg) [];
  validation_sent ← transfer_all originals_after VAL_DIR (MOVE_FILES cfg) [];
  _ ← transfer_file before_path TRAIN_DIR (MOVE_FILES cfg);
  let training_sent := training_sent ++ [before_path] in
  _ ← transfer_file after_path VAL_DIR (MOVE_FILES cfg);
  let validation_sent := validation_sent ++ [after_path] in
  mret {| sum_total_lines := total;
          sum_cutoff := cutoff;
          sum_cutoff_file_idx := cutoff_file_idx;
          sum_cutoff_file := cutoff_file;
          sum_cutoff_line_in_file := cutoff_line_in_file;
          sum_before_rows := before_rows;
          sum_after_rows := after_rows;
          training_sent := training_sent;
          validation_sent := validation_sent |}.

Definition main (cfg : Config) : M Summary := fun fs =>
  match input_folder fs with
  | None => (Raise ConfigError, fs)
  | Some folder =>
      let csv_files := list_csv_files folder in
      match csv_files with
      | [] => (Raise EmptyInputError, fs)
      | _ :: _ =>
          (infos ← count_all csv_files (ASSUME_HEADER cfg);
           let total := total_lines infos in
           cutoff ← lift (compute_cutoff (USE_CEIL_FOR_CUTOFF cfg) total);
           if (total =? 0)%Z then raise ZeroRowsError
           else
             '(cutoff_file_idx, cutoff_line_in_file) ←
               lift (find_cutoff_location infos cutoff);
             if (cutoff_file_idx <? 0)%Z then raise ZeroCutoffError
             else
               split_and_transfer cfg infos total cutoff cutoff_file_idx
                 cutoff_line_in_file) fs
      end
  end.

(** ** The cutoff the specification asks for *)

(** Nine tenths of [total] as an exact rational, rounded up or down. *)
Definition spec_cutoff (round_up : bool) (total : Z) : Z :=
  if round_up then Qceiling (Qmake (9 * total) 10)
  else Qfloor (Qmake (9 * total) 10).

(** ** Notions used in the statements *)

(** The file names of an output folder; none when it does not exist. *)
Definition dest_names (d : dest) (fs : FS) : gset string :=
  from_option dom ∅ (dest_dir d fs).

(** The infos that the counting loop builds for [files]. *)
Definition infos_of (folder : gmap string (list Row)) (assume_header : bool)
    (files : list Path)
  : list CsvInfo :=
  (fun p => {| path := p;
               data_line_count :=
                 count_rows (default [] (folder !! p)) assume_header |})
    <$> files.

(** ** Sample inputs *)

Definition infos_40_40_40 : list CsvInfo :=
  [ {| path := "a.csv"; data_line_count := 40 |};
    {| path := "b.csv"; data_line_count := 40 |};
    {| path := "c.csv"; data_line_count := 40 |} ].

Definition sample_rows : list (list string) :=
  [["t"; "x"]; ["1"; "a"]; ["2"; "b"]; ["3"; "c"]; ["4"; "d"]; ["5"; "e"]].

Definition sample_folder : gmap string (list (list string)) :=
  list_to_map
    [("b.csv", [["h"]; ["1"]; ["2"]; ["3"]]);
     ("a.CSV", [["h"]; ["4"]; ["5"]; ["6"]; ["7"]]);
     ("c.csv", [["h"]; ["8"]; ["9"]; ["10"]]);
     ("notes.txt", [["x"]])].

Definition header_only_folder : gmap string (list (list string)) :=
  list_to_map [("a.csv", [["h"]]); ("b.csv", [])].

Definition single_row_folder : gmap string (list (list string)) :=
  list_to_map [("a.csv", [["h"]; ["1"]])].

Definition fresh_fs (folder : gmap string (list (list string))) : FS :=
  {| input_folder := Some folder; train_dir := None; val_dir := None |}.

Definition default_config : Config :=
  {| ASSUME_HEADER := true; MOVE_FILES := false; USE_CEIL_FOR_CUTOFF := false |}.

Definition move_config : Config :=
  {| ASSUME_HEADER := true; MOVE_FILES := true; USE_CEIL_FOR_CUTOFF := false |}.

(** The folder of one file [sample_rows] after it is split at line 4. *)
Definition sample_split : gmap string (list (list string)) :=
  Eval vm_compute in
  match split_cutoff_file {[ "f.csv" := sample_rows ]} "f.csv"
          "b.csv" "a.csv" true 4 with
  | Ok (dir', _) => dir'
  | Raise _ => ∅
  end.

(** The run of [main] on the sample folder. *)
Definition sample_run : res Summary * FS :=
  Eval vm_compute in main default_config (fresh_fs sample_folder).



(** * Properties *)

(** ** Rounding *)

Section rounding.
Local Open Scope Z_scope.
Import Float.

Lemma round_half_even_near n d :
  0 < d →
  2 * n - d ≤ 2 * (d * round_half_even n d) ≤ 2 * n + d.
Proof.
  intros Hd. unfold round_half_even.
  pose proof (Z.div_mod n d ltac:(lia)) as Hn.
  pose proof (Z.mod_pos_bound n d Hd) as Hr.
  repeat case_match; lia.
Qed.

Lemma round_half_even_nonneg n d : 0 ≤ n → 0 < d → 0 ≤ round_half_even n d.
Proof.
  intros Hn Hd. unfold round_half_even.
  pose proof (Z.div_pos n d Hn Hd).
  repeat case_match; lia.
Qed.

Lemma div_between m D q : 0 < D → q * D ≤ m < (q + 1) * D → m / D = q.
Proof.
  intros HD Hm. symmetry. apply (Z.div_unique m D q (m - q * D)); lia.
Qed.

(** The exponent chosen for a quotient [a / 10] that is at least 0.9. *)
Lemma ulp_exp_ten a :
  9 ≤ a →
  let d := Z.log2 a - 3 in
  0 ≤ d ∧ 8 * 2 ^ d ≤ a < 16 * 2 ^ d ∧
  (10 * 2 ^ d ≤ a ∧ ulp_exp a 10 = d - 52 ∨
   a < 10 * 2 ^ d ∧ ulp_exp a 10 = d - 53).
Proof.
  intros Ha d.
  assert (3 ≤ Z.log2 a) as Hlog.
  { change 3 with (Z.log2 8). apply Z.log2_le_mono. lia. }
  destruct (Z.log2_spec a ltac:(lia)) as [Hlo Hhi].
  assert (0 ≤ d) as Hd by (unfold d; lia).
  assert (2 ^ Z.log2 a = 8 * 2 ^ d) as Hp.
  { replace (Z.log2 a) with (3 + d) by (unfold d; lia).
    rewrite Z.pow_add_r by lia. reflexivity. }
  assert (2 ^ Z.succ (Z.log2 a) = 16 * 2 ^ d) as Hq.
  { rewrite Z.pow_succ_r by lia. lia. }
  split; [done|]. split; [lia|].
  unfold ulp_exp, up, down, MIN_ULP_EXP.
  change (Z.log2 10) with 3. fold d.
  rewrite (Z.max_r 0 d) by lia. rewrite (Z.max_l 0 (- d)) by lia.
  rewrite Z.pow_0_r, Z.mul_1_r.
  destruct (Z.leb_spec (10 * 2 ^ d) a); [left|right]; split; lia.
Qed.

End rounding.

Section cutoff.
Local Open Scope Z_scope.
Import Float.

Lemma int_true_divide_ten a :
  9 ≤ a →
  int_true_divide a 10 =
    let e := ulp_exp a 10 in
    let m := round_half_even (a * down e) (10 * up e) in
    if (0 <=? e) && (2 ^ MAX_EXP <=? m * 2 ^ e) then Raise OverflowError
    else Ok {| mant := m; expo := e |}.
Proof.
  intros Ha. unfold int_true_divide.
  change (10 =? 0) with false. cbv iota.
  destruct (Z.eqb_spec a 0) as [->|_]; [lia|].
  rewrite (Z.abs_eq a) by lia. change (Z.abs 10) with 10.
  rewrite (Z.sgn_pos a) by lia. change (Z.sgn 10) with 1.
  cbv zeta. rewrite !Z.mul_1_l. reflexivity.
Qed.

Lemma compute_cutoff_small (round_up : bool) (total : Z) :
  1 ≤ total →
  9 * total < 10 * 2 ^ 50 →
  compute_cutoff round_up total = Ok (spec_cutoff round_up total).
Proof.
  intros Ht Hsmall. unfold compute_cutoff.
  destruct (Z.leb_spec total 0) as [?|_]; [lia|].
  rewrite int_true_divide_ten by lia. cbv zeta.
  destruct (ulp_exp_ten (9 * total) ltac:(lia)) as (Hd & Hbin & Hexp).
  set (d := Z.log2 (9 * total) - 3) in *.
  set (e := ulp_exp (9 * total) 10) in *.
  assert (∃ k, 0 ≤ k ∧ e = - (3 + k)) as (k & Hk & He).
  { destruct Hexp as [[Hge ->]|[Hlt ->]].
    - assert (d < 50); [|exists (49 - d); lia].
      apply (Z.pow_lt_mono_r_iff 2); lia.
    - assert (d < 51); [|exists (50 - d); lia].
      apply (Z.pow_lt_mono_r_iff 2); [lia..|].
      change (2 ^ 51) with (2 * 2 ^ 50). lia. }
  clearbody e. subst e. clear Hexp.
  destruct (Z.leb_spec 0 (- (3 + k))) as [?|_]; [lia|]. cbn [andb].
  unfold mbind, res_bind, up, down, Float.floor, Float.ceil. cbn [mant expo].
  destruct (Z.leb_spec 0 (- (3 + k))) as [?|_]; [lia|].
  rewrite (Z.max_l 0 (- (3 + k))), (Z.max_r 0 (- - (3 + k))) by lia.
  rewrite Z.pow_0_r, Z.mul_1_r.
  replace (- - (3 + k)) with (3 + k) by lia.
  rewrite Z.pow_add_r by lia. change (2 ^ 3) with 8.
  pose proof (Z.pow_pos_nonneg 2 k ltac:(lia) Hk) as Hpos.
  set (D := 8 * 2 ^ k) in *.
  assert (8 ≤ D) as HD by (unfold D; lia).
  pose proof (round_half_even_near (9 * total * D) 10 ltac:(lia)) as Hm.
  set (m := round_half_even (9 * total * D) 10) in *.
  pose proof (Z.div_mod (9 * total) 10 ltac:(lia)) as Hq.
  pose proof (Z.mod_pos_bound (9 * total) 10 ltac:(lia)) as Hr.
  set (q := 9 * total / 10) in *. set (r := (9 * total) mod 10) in *.
  assert (9 * total * D = 10 * (q * D) + r * D) as HaD by (rewrite Hq; ring).
  assert (0 ≤ r * D ≤ 9 * D) as HrD by nia.
  assert (r = 0 → r * D = 0) as Hr0 by (intros ->; lia).
  assert (1 ≤ r → D ≤ r * D) as Hr1 by nia.
  f_equal. unfold spec_cutoff.
  destruct round_up.
  - unfold Qceiling, Qfloor. cbn [Qopp Qnum Qden].
    f_equal.
    destruct (decide (r = 0)) as [Hz|Hnz].
    + rewrite (div_between (- m) D (- q)) by lia.
      symmetry. apply div_between; lia.
    + rewrite (div_between (- m) D (- (q + 1))) by lia.
      symmetry. apply div_between; lia.
  - unfold Qfloor. fold q. apply div_between; lia.
Qed.

(** The two facts about the largest exponent that the range proof uses,
    with [2^970] kept abstract. *)
Lemma max_exp_facts :
  ∃ B, 0 < B ∧ 2 ^ 970 = B ∧ 2 ^ 1024 = 2 ^ 54 * B ∧
       (∀ x, 2 ^ x < 2 ^ 54 * B → x < 1024) ∧
       (∀ x, 2 ^ x < 2 * (2 ^ 54 * B) → x < 1025) ∧
       (∀ x, x ≤ 971 → 2 ^ x ≤ 2 * B).
Proof.
  exists (2 ^ 970).
  assert (2 ^ 1024 = 2 ^ 54 * 2 ^ 970) as E.
  { rewrite <- Z.pow_add_r by done. reflexivity. }
  split; [by apply Z.pow_pos_nonneg|]. split; [done|]. split; [done|].
  rewrite <- E. split; [|split].
  - intros x Hx. by apply (Z.pow_lt_mono_r_iff 2) in Hx.
  - intros x Hx. rewrite <- (Z.pow_succ_r 2 1024) in Hx by done.
    by apply (Z.pow_lt_mono_r_iff 2) in Hx.
  - intros x Hx. rewrite <- (Z.pow_succ_r 2 970) by done.
    by apply Z.pow_le_mono_r.
Qed.

Lemma compute_cutoff_range (round_up : bool) (total : Z) :
  1 ≤ total →
  9 * total < 10 * (2 ^ 1024 - 2 ^ 970) →
  ∃ c, compute_cutoff round_up total = Ok c ∧ 0 ≤ c ≤ total ∧
       (2 ≤ total → 1 ≤ c).
Proof.
  intros Ht. unfold compute_cutoff.
  destruct (Z.leb_spec total 0) as [?|_]; [lia|].
  rewrite int_true_divide_ten by lia. cbv zeta. unfold MAX_EXP.
  destruct max_exp_facts as (B & HB & -> & -> & Hlt1 & Hlt2 & Hle).
  intros Hfin.
  destruct (ulp_exp_ten (9 * total) ltac:(lia)) as (Hd & Hbin & Hexp).
  set (d := Z.log2 (9 * total) - 3) in *.
  set (e := ulp_exp (9 * total) 10) in *. clearbody e d.
  pose proof (Z.pow_pos_nonneg 2 d ltac:(lia) Hd) as HP.
  destruct (Z.leb_spec 0 e) as [Hpos|Hneg]; cbn [andb].
  - (* the quotient is at least 2^52: the double is an integer *)
    assert (e ≤ 971 ∧ 2 ^ 52 * 2 ^ e ≤ 2 ^ d) as [He HU].
    { destruct Hexp as [[Hge ->]|[Hlt ->]].
      - split.
        + specialize (Hlt1 d ltac:(lia)). lia.
        + rewrite <- Z.pow_add_r by lia.
          apply Z.pow_le_mono_r; lia.
      - split.
        + specialize (Hlt2 d ltac:(lia)). lia.
        + rewrite <- Z.pow_add_r by lia.
          apply Z.pow_le_mono_r; lia. }
    pose proof (Z.pow_pos_nonneg 2 e ltac:(lia) Hpos) as HUpos.
    specialize (Hle e He). clear Hlt1 Hlt2.
    unfold mbind, res_bind, up, down, Float.floor, Float.ceil.
    cbn [mant expo].
    rewrite (Z.max_r 0 e), (Z.max_l 0 (- e)) by lia.
    rewrite Z.pow_0_r, Z.mul_1_r.
    pose proof (round_half_even_near (9 * total) (10 * 2 ^ e) ltac:(lia)) as Hm.
    pose proof (round_half_even_nonneg (9 * total) (10 * 2 ^ e)
                  ltac:(lia) ltac:(lia)) as Hm0.
    set (m := round_half_even (9 * total) (10 * 2 ^ e)) in *. clearbody m.
    set (U := 2 ^ e) in *.
    pose proof (Z.mul_nonneg_nonneg m U Hm0 ltac:(lia)) as HmU.
    replace (10 * U * m) with (10 * (m * U)) in Hm by ring.
    destruct (Z.leb_spec (2 ^ 54 * B) (m * U)) as [Hov|_]; [lia|].
    cbn [mant expo]. destruct (Z.leb_spec 0 e) as [_|?]; [|lia].
    fold U. exists (m * U). split; [by destruct round_up|]. lia.
  - (* below 2^52: the double has a fractional part *)
    clear Hfin Hlt1 Hlt2 Hle HB B.
    unfold mbind, res_bind, up, down, Float.floor, Float.ceil. cbn [mant expo].
    destruct (Z.leb_spec 0 e) as [?|_]; [lia|].
    rewrite (Z.max_l 0 e), (Z.max_r 0 (- e)) by lia.
    rewrite Z.pow_0_r, Z.mul_1_r.
    pose proof (Z.pow_pos_nonneg 2 (- e) ltac:(lia) ltac:(lia)) as HD.
    assert (2 ^ 52 ≤ 2 ^ d * 2 ^ (- e)) as HPD.
    { rewrite <- Z.pow_add_r by lia. apply Z.pow_le_mono_r; lia. }
    set (D := 2 ^ (- e)) in *. clearbody D. clear Hexp.
    pose proof (Z.mul_le_mono_nonneg_r (8 * 2 ^ d) (9 * total) D
                  ltac:(lia) ltac:(lia)) as HTD.
    pose proof (round_half_even_near (9 * total * D) 10 ltac:(lia)) as Hm.
    pose proof (round_half_even_nonneg (9 * total * D) 10
                  ltac:(lia) ltac:(lia)) as Hm0.
    set (m := round_half_even (9 * total * D) 10) in *. clearbody m.
    assert (m ≤ D * total) as Hle by lia.
    assert (2 ≤ total → D ≤ m) as Hge.
    { intros Htwo.
      pose proof (Z.mul_le_mono_nonneg_r 2 total D ltac:(lia) Htwo). lia. }
    destruct round_up; eexists; (split; [reflexivity|]).
    + split; [split|].
      * pose proof (Z.div_le_upper_bound (- m) D 0 HD ltac:(lia)). lia.
      * pose proof (Z.div_le_lower_bound (- m) D (- total) HD ltac:(lia)). lia.
      * intros Htwo. specialize (Hge Htwo).
        pose proof (Z.div_lt_upper_bound (- m) D 0 HD ltac:(lia)). lia.
    + split; [split|].
      * apply Z.div_pos; lia.
      * apply Z.div_le_upper_bound; lia.
      * intros Htwo. apply Z.div_le_lower_bound; [lia|].
        specialize (Hge Htwo). lia.
Qed.

End cutoff.

(** ** Locating *)

Section locate.
Local Open Scope Z_scope.
Implicit Types (infos : list CsvInfo) (cutoff running : Z).

Lemma cumulative_0 infos : cumulative infos 0 = 0.
Proof. reflexivity. Qed.

Lemma cumulative_cons info infos k :
  cumulative (info :: infos) (S k) = data_line_count info + cumulative infos k.
Proof. reflexivity. Qed.

Lemma cumulative_all infos : cumulative infos (length infos) = total_lines infos.
Proof. unfold cumulative. by rewrite firstn_all. Qed.

Lemma cumulative_S infos k info :
  infos !! k = Some info →
  cumulative infos (S k) = cumulative infos k + data_line_count info.
Proof.
  revert k. induction infos as [|x infos IH]; intros [|k] Hk; simplify_eq/=.
  - rewrite cumulative_cons, !cumulative_0. lia.
  - rewrite !cumulative_cons, (IH k Hk). lia.
Qed.

Lemma total_lines_cons info infos :
  total_lines (info :: infos) = data_line_count info + total_lines infos.
Proof. reflexivity. Qed.

Lemma total_lines_nonneg infos :
  Forall (fun info => 0 ≤ data_line_count info) infos → 0 ≤ total_lines infos.
Proof. induction 1; [done|]. rewrite total_lines_cons. lia. Qed.

Lemma cumulative_le_total infos k :
  Forall (fun info => 0 ≤ data_line_count info) infos →
  cumulative infos k ≤ total_lines infos.
Proof.
  intros Hall. revert k. induction Hall as [|x infos Hx Hall IH]; intros [|k].
  - reflexivity.
  - reflexivity.
  - rewrite cumulative_0. apply total_lines_nonneg. by constructor.
  - rewrite cumulative_cons, total_lines_cons. specialize (IH k). lia.
Qed.

(** What the loop returns, from any starting index and running total. *)
Lemma find_cutoff_loop_spec cutoff infos : ∀ i running,
  match find_cutoff_loop infos i running cutoff with
  | Some (idx, line) =>
      ∃ k : nat,
        (k < length infos)%nat ∧ idx = i + Z.of_nat k ∧
        line = cutoff - (running + cumulative infos k) ∧
        cutoff ≤ running + cumulative infos (S k) ∧
        ∀ j : nat, (j < k)%nat → running + cumulative infos (S j) < cutoff
  | None =>
      ∀ j : nat, (j < length infos)%nat →
        running + cumulative infos (S j) < cutoff
  end.
Proof.
  induction infos as [|info infos IH]; intros i running; cbn [find_cutoff_loop].
  - intros j Hj. cbn in Hj. lia.
  - destruct (Z.geb_spec (running + data_line_count info) cutoff) as [Hge|Hlt].
    + exists 0%nat. cbn [length]. rewrite cumulative_cons, !cumulative_0.
      repeat split; try lia.
    + specialize (IH (i + 1) (running + data_line_count info)).
      destruct (find_cutoff_loop infos _ _ cutoff) as [[idx line]|].
      * destruct IH as (k & Hk & -> & -> & Hreach & Hfirst).
        exists (S k). cbn [length]. rewrite !cumulative_cons.
        repeat split; try lia.
        intros [|j] Hj; rewrite cumulative_cons.
        -- rewrite cumulative_0. lia.
        -- specialize (Hfirst j ltac:(lia)). lia.
      * intros [|j] Hj; rewrite cumulative_cons.
        -- rewrite cumulative_0. lia.
        -- cbn [length] in Hj. specialize (IH j ltac:(lia)). lia.
Qed.

(** A cutoff between 1 and the total is reached inside some file. *)
Lemma find_cutoff_location_in_range infos cutoff :
  1 ≤ cutoff ≤ total_lines infos →
  ∃ (k : nat) (info : CsvInfo),
    find_cutoff_location infos cutoff
      = Ok (Z.of_nat k, cutoff - cumulative infos k) ∧
    infos !! k = Some info ∧
    cumulative infos k < cutoff ≤ cumulative infos k + data_line_count info ∧
    ∀ j : nat, (j < k)%nat → cumulative infos (S j) < cutoff.
Proof.
  intros [Hlo Hhi]. unfold find_cutoff_location.
  destruct (Z.leb_spec cutoff 0) as [?|_]; [lia|].
  pose proof (find_cutoff_loop_spec cutoff infos 0 0) as Hloop.
  destruct (find_cutoff_loop infos 0 0 cutoff) as [[idx line]|].
  - destruct Hloop as (k & Hk & -> & -> & Hreach & Hfirst).
    destruct (lookup_lt_is_Some_2 infos k Hk) as [info Hinfo].
    exists k, info. rewrite (cumulative_S _ _ _ Hinfo) in Hreach.
    repeat split; [done| |lia|].
    + destruct k as [|k]; [rewrite cumulative_0; lia|].
      specialize (Hfirst k ltac:(lia)). lia.
    + intros j Hj. specialize (Hfirst j Hj). lia.
  - exfalso. destruct infos as [|info infos] using rev_ind.
    + cbn in Hhi. lia.
    + specialize (Hloop (length infos)). rewrite length_app in Hloop.
      cbn [length] in Hloop. specialize (Hloop ltac:(lia)).
      replace (S (length infos)) with (length (infos ++ [info])) in Hloop
        by (rewrite length_app; cbn; lia).
      rewrite cumulative_all in Hloop. lia.
Qed.

(** With counts that are not negative, no file reaches a cutoff above
    the total. *)
Lemma find_cutoff_loop_beyond infos cutoff :
  Forall (fun info => 0 ≤ data_line_count info) infos →
  total_lines infos < cutoff →
  find_cutoff_loop infos 0 0 cutoff = None.
Proof.
  intros Hall Hgt.
  pose proof (find_cutoff_loop_spec cutoff infos 0 0) as Hloop.
  destruct (find_cutoff_loop infos 0 0 cutoff) as [[idx line]|]; [|done].
  destruct Hloop as (k & _ & _ & _ & Hreach & _).
  pose proof (cumulative_le_total infos (S k) Hall). lia.
Qed.

End locate.

(** ** Splitting *)

Section split.
Local Open Scope Z_scope.
Implicit Types (rows data_rows : list (list string)) (line : Z).

Lemma slice_bound_nonneg {A} (l : list A) j : 0 ≤ j → slice_bound l j = Z.to_nat j.
Proof.
  intros Hj. unfold slice_bound. by destruct (Z.ltb_spec j 0); [lia|].
Qed.

Lemma slice_to_from {A} (l : list A) j : slice_to l j ++ slice_from l j = l.
Proof. apply take_drop. Qed.

Lemma clamp_line_range n line : 0 ≤ n → 1 ≤ clamp_line n line ≤ n + 1.
Proof. unfold clamp_line. lia. Qed.

Lemma clamp_line_id n line : 1 ≤ line ≤ n + 1 → clamp_line n line = line.
Proof. unfold clamp_line. lia. Qed.

Lemma split_rows_app data_rows line :
  (split_rows data_rows line).1 ++ (split_rows data_rows line).2 = data_rows.
Proof. apply slice_to_from. Qed.

Lemma split_rows_lengths data_rows line :
  let n := Z.of_nat (length data_rows) in
  Z.of_nat (length (split_rows data_rows line).1) = clamp_line n line - 1 ∧
  Z.of_nat (length (split_rows data_rows line).2) = n - (clamp_line n line - 1).
Proof.
  intros n. unfold split_rows. cbn [fst snd]. fold n.
  pose proof (clamp_line_range n line ltac:(lia)) as Hk.
  unfold slice_to, slice_from.
  rewrite slice_bound_nonneg by lia.
  rewrite length_take, length_drop. lia.
Qed.

Lemma count_rows_data rows assume_header :
  count_rows rows assume_header
    = Z.of_nat (length (data_rows_of rows assume_header)).
Proof.
  unfold count_rows, data_rows_of.
  destruct rows as [|r rows], assume_header; cbn [length andb]; try done.
  destruct (Z.ltb_spec 0 (Z.of_nat (S (length rows)))); lia.
Qed.

Lemma data_rows_of_written rows assume_header data :
  data_rows_of (csv_records (header_of rows assume_header) data) assume_header
    = match rows with
      | [] => data_rows_of data assume_header
      | _ :: _ => data
      end.
Proof.
  destruct rows as [|r rows], assume_header; cbn; try done.
  by destruct data.
Qed.

End split.

(** ** Paths and the listing *)

Section paths.







Implicit Types folder : gmap string (list (list string)).

Lemma elem_of_list_csv_files folder p :
  p ∈ list_csv_files folder ↔ is_csv p = true ∧ is_Some (folder !! p).
Proof.
  unfold list_csv_files. rewrite merge_sort_Permutation, list_elem_of_filter.
  apply and_iff_compat_l. rewrite list_elem_of_fmap. split.
  - intros ([q rows] & -> & Hin). apply elem_of_map_to_list in Hin.
    by exists rows.
  - intros [rows Hrows]. exists (p, rows). by rewrite elem_of_map_to_list.
Qed.

Lemma NoDup_list_csv_files folder : NoDup (list_csv_files folder).
Proof.
  unfold list_csv_files. rewrite merge_sort_Permutation.
  apply NoDup_filter, NoDup_fst_map_to_list.
Qed.


End paths.

(** ** The file-system monad *)

Section monad.
Context {A B : Type}.
Implicit Types (m : M A) (k : A → M B) (fs : FS).

Lemma bind_Ok m k fs a fs' : m fs = (Ok a, fs') → (m ≫= k) fs = k a fs'.
Proof. unfold mbind, M_bind. by intros ->. Qed.

Lemma bind_Ok_inv m k fs b fs2 :
  (m ≫= k) fs = (Ok b, fs2) →
  ∃ a fs1, m fs = (Ok a, fs1) ∧ k a fs1 = (Ok b, fs2).
Proof.
  unfold mbind, M_bind. destruct (m fs) as [[a|e] fs1]; [eauto|done].
Qed.

End monad.

(** Invert a successful run of a bind: the first step returned [a] in the
    state [fs], and the rest ran from there. *)
Tactic Notation "inv_bind" hyp(H) "as" ident(a) ident(fs) ident(Hs) :=
  apply bind_Ok_inv in H as (a & fs & Hs & H).

(** ** Effects of the helpers *)

Section helpers.
Implicit Types (fs : FS) (folder : gmap string (list (list string))).

Lemma path_infos_of folder h files : path <$> infos_of folder h files = files.
Proof.
  unfold infos_of. rewrite <- list_fmap_compose. apply list_fmap_id.
Qed.

Lemma count_all_Ok fs folder h files :
  input_folder fs = Some folder →
  (∀ p, p ∈ files → is_Some (folder !! p)) →
  count_all files h fs = (Ok (infos_of folder h files), fs).
Proof.
  intros Hin. induction files as [|p files IH]; intros Hall; [done|].
  destruct (Hall p ltac:(left)) as [rows Hrows].
  cbn [count_all]. unfold count_data_lines.
  erewrite bind_Ok; last first.
  { erewrite bind_Ok; [reflexivity|].
    unfold read_input. rewrite Hin. cbn. by rewrite Hrows. }
  erewrite bind_Ok; [|apply IH; intros q Hq; apply Hall; by right].
  cbn. by rewrite Hrows.
Qed.

Lemma ensure_clean_dir_inv d fs u fs' :
  ensure_clean_dir d fs = (Ok u, fs') →
  input_folder fs' = input_folder fs ∧
  is_Some (dest_dir d fs') ∧
  ∀ d', dest_names d' fs' = dest_names d' fs.
Proof.
  unfold ensure_clean_dir, dest_names.
  destruct (dest_dir d fs) as [out|] eqn:Hd; intros [= _ <-].
  - rewrite Hd. eauto.
  - destruct d; cbn in *; (split; [done|]); (split; [eauto|]);
      intros []; cbn; by rewrite ?Hd.
Qed.

Lemma transfer_file_inv src d move fs p fs' :
  transfer_file src d move fs = (Ok p, fs') →
  p = src ∧
  dest_names d fs' = dest_names d fs ∪ {[src]} ∧
  ∀ d', d' ≠ d → dest_names d' fs' = dest_names d' fs.
Proof.
  unfold transfer_file, dest_names.
  destruct (input_folder fs) as [dir|]; [|done].
  destruct (dest_dir d fs) as [out|] eqn:Hd; [|done].
  destruct (dir !! src) as [rows|]; [|done].
  intros [= <- <-]. split; [done|].
  destruct d, move; cbn in *; rewrite dom_insert_L, (comm_L (∪));
    (split; [done|]); by intros [].
Qed.

Lemma transfer_all_inv files d move : ∀ sent fs sent' fs',
  transfer_all files d move sent fs = (Ok sent', fs') →
  sent' = sent ++ files ∧
  dest_names d fs' = dest_names d fs ∪ list_to_set files ∧
  ∀ d', d' ≠ d → dest_names d' fs' = dest_names d' fs.
Proof.
  induction files as [|f files IH]; intros sent fs sent' fs' Hrun.
  - injection Hrun as <- <-. rewrite app_nil_r. cbn [list_to_set foldr].
    by rewrite (right_id_L ∅ (∪)).
  - cbn [transfer_all] in Hrun. inv_bind Hrun as p fs1 Hstep.
    apply transfer_file_inv in Hstep as (_ & Hd & Hother).
    apply IH in Hrun as (-> & Hd' & Hother').
    rewrite <- app_assoc. split; [done|]. split.
    + by rewrite Hd', Hd, list_to_set_cons, (assoc_L (∪)).
    + intros d' Hne. by rewrite (Hother' d' Hne), (Hother d' Hne).
Qed.



End helpers.

(** ** The orchestrator *)

Section orchestrator.
Local Open Scope Z_scope.
Implicit Types (fs : FS) (folder : gmap string (list (list string))).
Implicit Types (cfg : Config) (rep : Summary).

(** [main] up to the location of the cutoff. *)
Lemma main_unfold cfg fs folder :
  input_folder fs = Some folder →
  list_csv_files folder ≠ [] →
  main cfg fs =
    let infos := infos_of folder (ASSUME_HEADER cfg) (list_csv_files folder) in
    let total := total_lines infos in
    match compute_cutoff (USE_CEIL_FOR_CUTOFF cfg) total with
    | Raise e => (Raise e, fs)
    | Ok cutoff =>
        if total =? 0 then (Raise ZeroRowsError, fs)
        else
          match find_cutoff_location infos cutoff with
          | Raise e => (Raise e, fs)
          | Ok (cutoff_file_idx, cutoff_line_in_file) =>
              if cutoff_file_idx <? 0 then (Raise ZeroCutoffError, fs)
              else split_and_transfer cfg infos total cutoff cutoff_file_idx
                     cutoff_line_in_file fs
          end
    end.
Proof.
  intros Hin Hne. unfold main. rewrite Hin.
  destruct (list_csv_files folder) as [|p files] eqn:Hfiles; [done|].
  rewrite <- Hfiles. cbv zeta.
  erewrite bind_Ok; last first.
  { apply (count_all_Ok _ folder); [done|].
    intros q Hq. by apply elem_of_list_csv_files in Hq as [_ ?]. }
  unfold mbind at 1, M_bind, lift.
  destruct (compute_cutoff _ _) as [cutoff|e]; [|done].
  destruct (_ =? 0); [done|].
  unfold mbind at 1, M_bind.
  destruct (find_cutoff_location _ _) as [[idx line]|e]; [|done].
  by destruct (idx <? 0).
Qed.

Lemma slice_to_nat {A} (l : list A) (i : nat) : slice_to l (Z.of_nat i) = take i l.
Proof.
  unfold slice_to. by rewrite slice_bound_nonneg, Nat2Z.id by lia.
Qed.

Lemma slice_from_nat {A} (l : list A) (i : nat) :
  slice_from l (Z.of_nat i + 1) = drop (S i) l.
Proof.
  unfold slice_from. rewrite slice_bound_nonneg by lia.
  by replace (Z.to_nat (Z.of_nat i + 1)) with (S i) by lia.
Qed.

(** A successful run from the split on: what was sent where. *)
Lemma split_and_transfer_inv cfg infos total cutoff (idx : nat) line fs rep fs' :
  split_and_transfer cfg infos total cutoff (Z.of_nat idx) line fs = (Ok rep, fs') →
  ∃ info,
    infos !! idx = Some info ∧
    sum_cutoff_file_idx rep = Z.of_nat idx ∧
    sum_cutoff_file rep = path info ∧
    training_sent rep
      = take idx (path <$> infos) ++ [before_name (path info)] ∧
    validation_sent rep
      = drop (S idx) (path <$> infos) ++ [after_name (path info)] ∧
    dest_names TRAIN_DIR fs'
      = dest_names TRAIN_DIR fs ∪ list_to_set (training_sent rep) ∧
    dest_names VAL_DIR fs'
      = dest_names VAL_DIR fs ∪ list_to_set (validation_sent rep).
Proof.
  unfold split_and_transfer. intros Hrun.
  inv_bind Hrun as info fs0 Hget.
  unfold lift, get_info in Hget. rewrite Nat2Z.id in Hget.
  destruct (infos !! idx) as [info'|] eqn:Hinfo; [|done].
  injection Hget as <- <-.
  inv_bind Hrun as u1 fs1 Hmk1.
  apply ensure_clean_dir_inv in Hmk1 as (_ & _ & Hn1).
  inv_bind Hrun as u2 fs2 Hmk2.
  apply ensure_clean_dir_inv in Hmk2 as (_ & _ & Hn2).
  inv_bind Hrun as counts fs3 Hsplit. destruct counts as [before_rows after_rows].
  assert (∀ d, dest_names d fs3 = dest_names d fs2) as Hn3.
  { unfold split_file in Hsplit.
    destruct (input_folder fs2); [|done].
    destruct (split_cutoff_file _ _ _ _ _ _) as [[dir' counts]|]; [|done].
    injection Hsplit as _ <-. by intros []. }
  rewrite slice_to_nat, slice_from_nat, fmap_take, fmap_drop in Hrun.
  inv_bind Hrun as sent1 fs4 Hbefore.
  apply transfer_all_inv in Hbefore as (-> & Ht4 & Ho4).
  inv_bind Hrun as sent2 fs5 Hafter.
  apply transfer_all_inv in Hafter as (-> & Ht5 & Ho5).
  inv_bind Hrun as p1 fs6 Hsend1.
  apply transfer_file_inv in Hsend1 as (_ & Ht6 & Ho6).
  inv_bind Hrun as p2 fs7 Hsend2.
  apply transfer_file_inv in Hsend2 as (_ & Ht7 & Ho7).
  injection Hrun as <- <-. cbn [sum_cutoff_file_idx sum_cutoff_file
    training_sent validation_sent].
  cbn [app].
  exists info'. repeat split; try done.
  - rewrite (Ho7 TRAIN_DIR), Ht6, (Ho5 TRAIN_DIR), Ht4, Hn3, Hn2, Hn1 by done.
    by rewrite list_to_set_snoc_L, (assoc_L (∪)).
  - rewrite Ht7, (Ho6 VAL_DIR), Ht5, (Ho4 VAL_DIR), Hn3, Hn2, Hn1 by done.
    by rewrite list_to_set_snoc_L, (assoc_L (∪)).
Qed.

Lemma before_after_name_ne (f : string) : before_name f ≠ after_name f.
Proof.
  unfold before_name, after_name. intros Heq.
  by apply (inj (String.app _)) in Heq.
Qed.




End orchestrator.

(** ** The state after a run *)

Section run.
Local Open Scope Z_scope.
Implicit Types (fs : FS) (folder dir out : gmap string (list (list string))).
Implicit Types (cfg : Config) (rep : Summary).

Lemma dest_dir_set_input d dir fs : dest_dir d (set_input dir fs) = dest_dir d fs.
Proof. by destruct d. Qed.

(** The state after one transfer. *)
Lemma transfer_file_spec src d move fs dir out rows :
  input_folder fs = Some dir →
  dest_dir d fs = Some out →
  dir !! src = Some rows →
  ∃ fs',
    transfer_file src d move fs = (Ok src, fs') ∧
    input_folder fs' = Some (if move then delete src dir else dir) ∧
    dest_dir d fs' = Some (<[src := rows]> out) ∧
    ∀ d', d' ≠ d → dest_dir d' fs' = dest_dir d' fs.
Proof.
  intros Hin Hd Hsrc. unfold transfer_file. rewrite Hin, Hd, Hsrc.
  eexists. split; [reflexivity|].
  destruct d, move; cbn; (split; [done|]); (split; [done|]); by intros [].
Qed.

(** The state after a transfer loop over distinct files that exist: the
    output folder holds each file as the input folder held it, and the
    input folder has lost them if they were moved. *)
Lemma transfer_all_spec d move files : ∀ sent fs dir out,
  input_folder fs = Some dir →
  dest_dir d fs = Some out →
  NoDup files →
  (∀ p, p ∈ files → is_Some (dir !! p)) →
  ∃ fs' dir' out',
    transfer_all files d move sent fs = (Ok (sent ++ files), fs') ∧
    input_folder fs' = Some dir' ∧
    dest_dir d fs' = Some out' ∧
    (∀ d', d' ≠ d → dest_dir d' fs' = dest_dir d' fs) ∧
    (∀ q, q ∈ files →
       out' !! q = dir !! q ∧ dir' !! q = if move then None else dir !! q) ∧
    (∀ q, q ∉ files → out' !! q = out !! q ∧ dir' !! q = dir !! q).
Proof.
  induction files as [|f files IH]; intros sent fs dir out Hin Hd Hnd Hall.
  - exists fs, dir, out. rewrite app_nil_r.
    split; [done|]. split; [done|]. split; [done|]. split; [done|].
    split; [|done]. intros q Hq. by apply elem_of_nil in Hq.
  - apply NoDup_cons in Hnd as [Hf Hnd].
    destruct (Hall f ltac:(left)) as [rows Hrows].
    destruct (transfer_file_spec f d move fs dir out rows Hin Hd Hrows)
      as (fs1 & Hstep & Hin1 & Hd1 & Ho1).
    set (dir1 := if move then delete f dir else dir) in *.
    assert (∀ q, q ≠ f → dir1 !! q = dir !! q) as Hsame.
    { intros q Hq. unfold dir1. destruct move; [|done].
      by rewrite lookup_delete_ne. }
    assert (dir1 !! f = if move then None else dir !! f) as Hgone.
    { unfold dir1. destruct move; [|done]. apply lookup_delete_eq. }
    destruct (IH (sent ++ [f]) fs1 dir1 (<[f := rows]> out) Hin1 Hd1 Hnd)
      as (fs' & dir' & out' & Hrun & Hin' & Hd' & Ho' & Hmem & Hnot).
    { intros p Hp. rewrite Hsame; [apply Hall; by right|]. by intros ->. }
    exists fs', dir', out'. cbn [transfer_all].
    rewrite (bind_Ok _ _ _ _ _ Hstep), Hrun, <- app_assoc.
    split; [done|]. split; [done|]. split; [done|]. split; [|split].
    + intros d' Hne. by rewrite Ho', Ho1.
    + intros q Hq. apply elem_of_cons in Hq as [->|Hq].
      * destruct (Hnot f Hf) as [-> ->].
        by rewrite lookup_insert_eq, Hrows, Hgone, Hrows.
      * destruct (Hmem q Hq) as [-> ->].
        rewrite Hsame; [done|]. by intros ->.
    + intros q Hq. apply not_elem_of_cons in Hq as [Hqf Hq].
      destruct (Hnot q Hq) as [-> ->].
      by rewrite lookup_insert_ne, Hsame.
Qed.

(** A completed run from the split on: the counts in the summary. *)
Lemma split_and_transfer_counts cfg infos total cutoff (idx : nat) line fs
    folder rep fs' :
  input_folder fs = Some folder →
  split_and_transfer cfg infos total cutoff (Z.of_nat idx) line fs
    = (Ok rep, fs') →
  ∃ info rows,
    infos !! idx = Some info ∧
    folder !! path info = Some rows ∧
    sum_cutoff_file_idx rep = Z.of_nat idx ∧
    sum_total_lines rep = total ∧
    sum_cutoff rep = cutoff ∧
    sum_cutoff_line_in_file rep = line ∧
    sum_before_rows rep
      = Z.of_nat (length (split_rows (data_rows_of rows (ASSUME_HEADER cfg))
                            line).1) ∧
    sum_after_rows rep
      = Z.of_nat (length (split_rows (data_rows_of rows (ASSUME_HEADER cfg))
                            line).2).
Proof.
  intros Hin. unfold split_and_transfer. intros Hrun.
  inv_bind Hrun as info fs0 Hget.
  unfold lift, get_info in Hget. rewrite Nat2Z.id in Hget.
  destruct (infos !! idx) as [info'|] eqn:Hinfo; [|done].
  injection Hget as <- <-.
  inv_bind Hrun as u1 fs1 Hmk1.
  apply ensure_clean_dir_inv in Hmk1 as (Hin1 & _ & _).
  inv_bind Hrun as u2 fs2 Hmk2.
  apply ensure_clean_dir_inv in Hmk2 as (Hin2 & _ & _).
  rewrite Hin1, Hin in Hin2.
  inv_bind Hrun as counts fs3 Hsplit. destruct counts as [before_rows after_rows].
  unfold split_file, split_cutoff_file in Hsplit. rewrite Hin2 in Hsplit.
  destruct (folder !! path info') as [rows|] eqn:Hrows; [|done].
  destruct (split_rows _ _) as [before after] eqn:Hparts.
  injection Hsplit as <- <- _.
  inv_bind Hrun as sent1 fs4 Hbefore.
  inv_bind Hrun as sent2 fs5 Hafter.
  inv_bind Hrun as p1 fs6 Hsend1.
  inv_bind Hrun as p2 fs7 Hsend2.
  injection Hrun as <- _.
  cbn [sum_total_lines sum_cutoff sum_cutoff_line_in_file sum_before_rows
       sum_after_rows sum_cutoff_file_idx].
  exists info', rows. by rewrite Hparts.
Qed.

Lemma ensure_clean_dir_spec d fs :
  ∃ fs',
    ensure_clean_dir d fs = (Ok (), fs') ∧
    input_folder fs' = input_folder fs ∧
    dest_dir d fs' = Some (default ∅ (dest_dir d fs)) ∧
    ∀ d', d' ≠ d → dest_dir d' fs' = dest_dir d' fs.
Proof.
  unfold ensure_clean_dir. destruct (dest_dir d fs) as [out|] eqn:Hd.
  - exists fs. by rewrite Hd.
  - eexists. split; [reflexivity|].
    destruct d; cbn; (split; [done|]); (split; [done|]); by intros [].
Qed.

(** A run from the split on, when no listed file bears the name of an
    output of the cutoff file: what the three folders hold afterwards. *)
Lemma split_and_transfer_spec cfg folder fs total cutoff (idx : nat) line f rows :
  input_folder fs = Some folder →
  list_csv_files folder !! idx = Some f →
  folder !! f = Some rows →
  (∀ p, p ∈ list_csv_files folder → before_name f ≠ p ∧ after_name f ≠ p) →
  let csv_files := list_csv_files folder in
  let header := header_of rows (ASSUME_HEADER cfg) in
  let parts := split_rows (data_rows_of rows (ASSUME_HEADER cfg)) line in
  ∃ rep fs' train' val' in',
    split_and_transfer cfg (infos_of folder (ASSUME_HEADER cfg) csv_files)
      total cutoff (Z.of_nat idx) line fs = (Ok rep, fs') ∧
    train_dir fs' = Some train' ∧
    val_dir fs' = Some val' ∧
    input_folder fs' = Some in' ∧
    train' !! before_name f = Some (csv_records header parts.1) ∧
    (∀ q, q ∈ take idx csv_files → train' !! q = folder !! q) ∧
    (∀ q, q ≠ before_name f → q ∉ take idx csv_files →
          train' !! q = default ∅ (train_dir fs) !! q) ∧
    val' !! after_name f = Some (csv_records header parts.2) ∧
    (∀ q, q ∈ drop (S idx) csv_files → val' !! q = folder !! q) ∧
    (∀ q, q ≠ after_name f → q ∉ drop (S idx) csv_files →
          val' !! q = default ∅ (val_dir fs) !! q) ∧
    (∀ q, q ≠ before_name f → q ≠ after_name f → (q ∈ csv_files → q = f) →
          in' !! q = folder !! q) ∧
    (∀ q, q ∈ csv_files → q ≠ f →
          in' !! q = if MOVE_FILES cfg then None else folder !! q) ∧
    in' !! before_name f
      = (if MOVE_FILES cfg then None else Some (csv_records header parts.1)) ∧
    in' !! after_name f
      = (if MOVE_FILES cfg then None else Some (csv_records header parts.2)).
Proof.
  intros Hin Hf Hrows Hfresh csv_files header parts.
  fold csv_files in Hf, Hfresh.
  pose proof (NoDup_list_csv_files folder) as Hnd. fold csv_files in Hnd.
  assert (∀ p, p ∈ csv_files → is_Some (folder !! p)) as Hexists.
  { intros p Hp. by apply elem_of_list_csv_files in Hp as [_ ?]. }
  pose proof (before_after_name_ne f) as Hba.
  unfold split_and_transfer.
  erewrite bind_Ok; last first.
  { unfold lift, get_info, infos_of. rewrite Nat2Z.id, list_lookup_fmap, Hf.
    reflexivity. }
  cbn [path]. rewrite slice_to_nat, slice_from_nat, fmap_take, fmap_drop.
  rewrite path_infos_of.
  (* the two output folders *)
  destruct (ensure_clean_dir_spec TRAIN_DIR fs) as (fs1 & Hmk1 & Hin1 & Ht1 & Ho1).
  rewrite (bind_Ok _ _ _ _ _ Hmk1).
  destruct (ensure_clean_dir_spec VAL_DIR fs1) as (fs2 & Hmk2 & Hin2 & Hv2 & Ho2).
  rewrite (bind_Ok _ _ _ _ _ Hmk2).
  rewrite Hin1, Hin in Hin2.
  rewrite (Ho1 VAL_DIR) in Hv2 by done.
  pose proof (Ho2 TRAIN_DIR ltac:(done)) as Ht2. rewrite Ht1 in Ht2.
  cbn [dest_dir] in Ht2, Hv2.
  set (train0 := default ∅ (train_dir fs)) in *.
  set (val0 := default ∅ (val_dir fs)) in *.
  (* the split *)
  unfold parts. clear parts.
  destruct (split_rows (data_rows_of rows (ASSUME_HEADER cfg)) line)
    as [before after] eqn:Hsplit. cbn [fst snd].
  set (B := csv_records header before). set (A := csv_records header after).
  erewrite bind_Ok; last first.
  { unfold split_file, split_cutoff_file. rewrite Hin2, Hrows, Hsplit.
    reflexivity. }
  fold header. fold B A.
  set (dir3 := write_csv (write_csv folder (before_name f) header before)
                 (after_name f) header after).
  assert (dir3 !! before_name f = Some B) as Hb3.
  { unfold dir3, write_csv. rewrite lookup_insert_ne by done.
    apply lookup_insert_eq. }
  assert (dir3 !! after_name f = Some A) as Ha3.
  { unfold dir3, write_csv. apply lookup_insert_eq. }
  assert (∀ q, q ≠ before_name f → q ≠ after_name f →
               dir3 !! q = folder !! q) as Hkeep3.
  { intros q Hqb Hqa. unfold dir3, write_csv. by rewrite !lookup_insert_ne. }
  assert (∀ q, q ∈ csv_files → q ≠ before_name f ∧ q ≠ after_name f) as Hlisted.
  { intros q Hq. destruct (Hfresh q Hq). split; congruence. }
  set (fs3 := set_input dir3 fs2).
  assert (dest_dir TRAIN_DIR fs3 = Some train0) as Ht3 by done.
  assert (dest_dir VAL_DIR fs3 = Some val0) as Hv3 by done.
  (* the files before and after the cutoff file *)
  pose proof Hnd as Hnd'.
  rewrite <- (take_drop_middle csv_files idx f Hf) in Hnd'.
  apply NoDup_app in Hnd' as (Hnd1 & Hdisj & Hnd2).
  apply NoDup_cons in Hnd2 as [Hfafter Hnd2].
  assert (f ∉ take idx csv_files) as Hfbefore.
  { intros Hq. apply (Hdisj f Hq). by left. }
  assert (∀ p, p ∈ take idx csv_files → p ∈ csv_files) as Hsub1.
  { intros p Hp. rewrite <- (take_drop idx csv_files), elem_of_app. by left. }
  assert (∀ p, p ∈ drop (S idx) csv_files → p ∈ csv_files) as Hsub2.
  { intros p Hp. rewrite <- (take_drop (S idx) csv_files), elem_of_app.
    by right. }
  assert (∀ q, q ∈ csv_files → q ≠ f →
               q ∈ take idx csv_files ∨ q ∈ drop (S idx) csv_files) as Hcases.
  { intros q Hq Hqf.
    rewrite <- (take_drop_middle csv_files idx f Hf) in Hq.
    apply elem_of_app in Hq as [?|Hq]; [by left|].
    apply elem_of_cons in Hq as [?|?]; [done|by right]. }
  destruct (transfer_all_spec TRAIN_DIR (MOVE_FILES cfg) (take idx csv_files)
              [] fs3 dir3 train0 eq_refl Ht3 Hnd1)
    as (fs4 & dir4 & out4 & Hrun4 & Hin4 & Ht4 & Ho4 & Hmem4 & Hnot4).
  { intros p Hp. destruct (Hlisted p (Hsub1 p Hp)).
    rewrite Hkeep3 by done. by apply Hexists, Hsub1. }
  rewrite (bind_Ok _ _ _ _ _ Hrun4).
  pose proof (Ho4 VAL_DIR ltac:(done)) as Hv4. rewrite Hv3 in Hv4.
  destruct (transfer_all_spec VAL_DIR (MOVE_FILES cfg) (drop (S idx) csv_files)
              [] fs4 dir4 val0 Hin4 Hv4 Hnd2)
    as (fs5 & dir5 & out5 & Hrun5 & Hin5 & Hv5 & Ho5 & Hmem5 & Hnot5).
  { intros p Hp. destruct (Hlisted p (Hsub2 p Hp)).
    destruct (Hnot4 p) as [_ ->].
    - intros Hp'. apply (Hdisj p Hp'). by right.
    - rewrite Hkeep3 by done. by apply Hexists, Hsub2. }
  rewrite (bind_Ok _ _ _ _ _ Hrun5).
  pose proof (Ho5 TRAIN_DIR ltac:(done)) as Ht5. rewrite Ht4 in Ht5.
  (* the input folder after the two loops *)
  assert (∀ q, q ∉ take idx csv_files → q ∉ drop (S idx) csv_files →
               dir5 !! q = dir3 !! q) as Hkeep5.
  { intros q Hq1 Hq2. destruct (Hnot5 q Hq2) as [_ ->].
    by destruct (Hnot4 q Hq1) as [_ ->]. }
  assert ((before_name f ∉ take idx csv_files) ∧
          (before_name f ∉ drop (S idx) csv_files)) as [Hbn1 Hbn2].
  { split; intros Hq; [apply Hsub1 in Hq|apply Hsub2 in Hq];
      by destruct (Hfresh _ Hq). }
  assert ((after_name f ∉ take idx csv_files) ∧
          (after_name f ∉ drop (S idx) csv_files)) as [Han1 Han2].
  { split; intros Hq; [apply Hsub1 in Hq|apply Hsub2 in Hq];
      by destruct (Hfresh _ Hq). }
  (* the two outputs *)
  destruct (transfer_file_spec (before_name f) TRAIN_DIR (MOVE_FILES cfg) fs5
              dir5 out4 B Hin5 Ht5) as (fs6 & Hrun6 & Hin6 & Ht6 & Ho6).
  { by rewrite Hkeep5, Hb3. }
  rewrite (bind_Ok _ _ _ _ _ Hrun6).
  pose proof (Ho6 VAL_DIR ltac:(done)) as Hv6. rewrite Hv5 in Hv6.
  set (dir6 := if MOVE_FILES cfg then delete (before_name f) dir5 else dir5) in *.
  assert (∀ q, q ≠ before_name f → dir6 !! q = dir5 !! q) as Hkeep6.
  { intros q Hq. unfold dir6. destruct (MOVE_FILES cfg); [|done].
    by rewrite lookup_delete_ne. }
  destruct (transfer_file_spec (after_name f) VAL_DIR (MOVE_FILES cfg) fs6
              dir6 out5 A Hin6 Hv6) as (fs7 & Hrun7 & Hin7 & Hv7 & Ho7).
  { rewrite Hkeep6 by done. by rewrite Hkeep5, Ha3. }
  rewrite (bind_Ok _ _ _ _ _ Hrun7).
  pose proof (Ho7 TRAIN_DIR ltac:(done)) as Ht7. rewrite Ht6 in Ht7.
  set (dir7 := if MOVE_FILES cfg then delete (after_name f) dir6 else dir6) in *.
  assert (∀ q, q ≠ after_name f → dir7 !! q = dir6 !! q) as Hkeep7.
  { intros q Hq. unfold dir7. destruct (MOVE_FILES cfg); [|done].
    by rewrite lookup_delete_ne. }
  eexists _, fs7, _, _, dir7. split; [reflexivity|].
  split; [exact Ht7|]. split; [exact Hv7|]. split; [exact Hin7|].
  split; [apply lookup_insert_eq|]. split; [|split].
  { intros q Hq. destruct (Hlisted q (Hsub1 q Hq)).
    rewrite lookup_insert_ne by done.
    destruct (Hmem4 q Hq) as [-> _]. by apply Hkeep3. }
  { intros q Hqb Hq. rewrite lookup_insert_ne by done.
    by destruct (Hnot4 q Hq) as [-> _]. }
  split; [apply lookup_insert_eq|]. split; [|split].
  { intros q Hq. destruct (Hlisted q (Hsub2 q Hq)).
    rewrite lookup_insert_ne by done.
    destruct (Hmem5 q Hq) as [-> _].
    destruct (Hnot4 q) as [_ ->].
    - intros Hp'. apply (Hdisj q Hp'). by right.
    - by apply Hkeep3. }
  { intros q Hqa Hq. rewrite lookup_insert_ne by done.
    by destruct (Hnot5 q Hq) as [-> _]. }
  split; [|split; [|split]].
  - intros q Hqb Hqa Hq. rewrite Hkeep7, Hkeep6, Hkeep5, Hkeep3; try done.
    + intros Hq1. specialize (Hq (Hsub1 q Hq1)). by subst q.
    + intros Hq2. specialize (Hq (Hsub2 q Hq2)). by subst q.
  - intros q Hq Hqf. destruct (Hlisted q Hq) as [Hqb Hqa].
    rewrite Hkeep7, Hkeep6 by done.
    destruct (Hcases q Hq Hqf) as [Hq1|Hq2].
    + destruct (Hnot5 q) as [_ ->].
      { intros Hq2. apply (Hdisj q Hq1). by right. }
      destruct (Hmem4 q Hq1) as [_ ->].
      destruct (MOVE_FILES cfg); [done|]. by apply Hkeep3.
    + destruct (Hmem5 q Hq2) as [_ ->].
      destruct (MOVE_FILES cfg); [done|].
      destruct (Hnot4 q) as [_ ->].
      { intros Hq1. apply (Hdisj q Hq1). by right. }
      by apply Hkeep3.
  - rewrite Hkeep7 by done. unfold dir6.
    destruct (MOVE_FILES cfg); [apply lookup_delete_eq|].
    by rewrite Hkeep5, Hb3.
  - unfold dir7. destruct (MOVE_FILES cfg); [apply lookup_delete_eq|].
    unfold dir6. by rewrite Hkeep5, Ha3.
Qed.

(** Every completed run on a folder that holds no file named like the two
    outputs of the cutoff file: the summary and the three folders. *)
Lemma main_run_spec cfg fs folder rep fs' :
  input_folder fs = Some folder →
  main cfg fs = (Ok rep, fs') →
  let csv_files := list_csv_files folder in
  let f := sum_cutoff_file rep in
  (before_name f ∉ csv_files) →
  (after_name f ∉ csv_files) →
  ∃ (idx : nat) rows train' val' in',
    sum_cutoff_file_idx rep = Z.of_nat idx ∧
    csv_files !! idx = Some f ∧
    folder !! f = Some rows ∧
    training_sent rep = take idx csv_files ++ [before_name f] ∧
    validation_sent rep = drop (S idx) csv_files ++ [after_name f] ∧
    train_dir fs' = Some train' ∧
    val_dir fs' = Some val' ∧
    input_folder fs' = Some in' ∧
    let header := header_of rows (ASSUME_HEADER cfg) in
    let parts := split_rows (data_rows_of rows (ASSUME_HEADER cfg))
                   (sum_cutoff_line_in_file rep) in
    train' !! before_name f = Some (csv_records header parts.1) ∧
    (∀ q, q ∈ take idx csv_files → train' !! q = folder !! q) ∧
    (∀ q, q ≠ before_name f → q ∉ take idx csv_files →
          train' !! q = default ∅ (train_dir fs) !! q) ∧
    val' !! after_name f = Some (csv_records header parts.2) ∧
    (∀ q, q ∈ drop (S idx) csv_files → val' !! q = folder !! q) ∧
    (∀ q, q ≠ after_name f → q ∉ drop (S idx) csv_files →
          val' !! q = default ∅ (val_dir fs) !! q) ∧
    (∀ q, q ≠ before_name f → q ≠ after_name f → (q ∈ csv_files → q = f) →
          in' !! q = folder !! q) ∧
    (∀ q, q ∈ csv_files → q ≠ f →
          in' !! q = if MOVE_FILES cfg then None else folder !! q) ∧
    in' !! before_name f
      = (if MOVE_FILES cfg then None else Some (csv_records header parts.1)) ∧
    in' !! after_name f
      = (if MOVE_FILES cfg then None else Some (csv_records header parts.2)) ∧
    sum_before_rows rep = Z.of_nat (length parts.1) ∧
    sum_after_rows rep = Z.of_nat (length parts.2).
Proof.
  intros Hin Hrun csv_files f Hfb Hfa.
  assert (csv_files ≠ []) as Hne.
  { intros Hnil. unfold main in Hrun. rewrite Hin in Hrun.
    fold csv_files in Hrun. by rewrite Hnil in Hrun. }
  rewrite (main_unfold cfg fs folder Hin Hne) in Hrun. cbv zeta in Hrun.
  fold csv_files in Hrun.
  destruct (compute_cutoff _ _) as [cutoff|]; [|done].
  destruct (_ =? 0)%Z; [done|].
  destruct (find_cutoff_location _ _) as [[i line]|]; [|done].
  destruct (Z.ltb_spec i 0) as [|Hi]; [done|].
  rewrite <- (Z2Nat.id i Hi) in Hrun.
  set (idx := Z.to_nat i) in *.
  pose proof Hrun as Hinv.
  apply split_and_transfer_inv in Hinv
    as (info & Hinfo & _ & Hfile & Htrain & Hval & _).
  rewrite path_infos_of in Htrain, Hval.
  pose proof Hrun as Hcnt.
  apply (split_and_transfer_counts _ _ _ _ _ _ _ folder) in Hcnt
    as (info' & rows & Hinfo' & Hrows & Hidx & _ & _ & Hline & Hb & Ha);
    [|done].
  rewrite Hinfo in Hinfo'. injection Hinfo' as <-.
  assert (f = path info) as Hf by (unfold f; by rewrite Hfile).
  assert (csv_files !! idx = Some (path info)) as Hlookup.
  { rewrite <- (path_infos_of folder (ASSUME_HEADER cfg) csv_files).
    by rewrite list_lookup_fmap, Hinfo. }
  match type of Hrun with
  | split_and_transfer _ _ ?t ?c _ _ _ = _ =>
      destruct (split_and_transfer_spec cfg folder fs t c idx line
                  (path info) rows Hin Hlookup Hrows)
        as (rep0 & fs0 & train' & val' & in' & Hrun0 & Hspec)
  end.
  { intros p Hp. rewrite <- Hf. split; intros Heq; subst p; done. }
  fold csv_files in Hrun0, Hspec. rewrite Hrun0 in Hrun.
  injection Hrun as -> ->.
  exists idx, rows, train', val', in'.
  rewrite Hf, Hline.
  split; [done|]. split; [done|]. split; [done|].
  split; [done|]. split; [done|].
  destruct Hspec as (? & ? & ? & ? & ? & ? & ? & ? & ? & ? & ? & ? & ?).
  by repeat (split; [done|]).
Qed.

End run.

(** ** Examples *)

(** The double nearest to one third, [0x1.5555555555555p-2]. *)
Example int_true_divide_1_3 :
  Float.int_true_divide 1 3
    = Ok {| Float.mant := 6004799503160661; Float.expo := -54 |}.
Proof. reflexivity. Qed.

(** The cutoffs of the docstring of [compute_cutoff]. *)
Example compute_cutoff_docstring :
  compute_cutoff false 100 = Ok 90 ∧ compute_cutoff true 100 = Ok 90 ∧
  compute_cutoff false 101 = Ok 90 ∧ compute_cutoff true 101 = Ok 91 ∧
  compute_cutoff false 10 = Ok 9 ∧ compute_cutoff false 0 = Ok 0.
Proof. repeat split; reflexivity. Qed.

(** Three files of 40 rows: the cutoff 108 is line 28 of the third file. *)
Example locate_40_40_40 :
  compute_cutoff false (total_lines infos_40_40_40) = Ok 108 ∧
  find_cutoff_location infos_40_40_40 108 = Ok (2, 28).
Proof. split; reflexivity. Qed.

(** A file of a header and 5 data rows, cut at line 4: 3 rows before, 2 at
    or after. *)
Example split_sample_rows :
  split_rows (data_rows_of sample_rows true) 4
    = ([["1"; "a"]; ["2"; "b"]; ["3"; "c"]], [["4"; "d"]; ["5"; "e"]]).
Proof. reflexivity. Qed.

(** A negative line number and one beyond the file are clamped. *)
Example split_sample_rows_clamped :
  split_rows (data_rows_of sample_rows true) (-3)
    = ([], data_rows_of sample_rows true) ∧
  split_rows (data_rows_of sample_rows true) 99
    = (data_rows_of sample_rows true, []).
Proof. split; reflexivity. Qed.

(** The listing is sorted by name and keeps the [.csv] files, whatever the
    case of the suffix. *)
Example list_csv_files_sample :
  list_csv_files sample_folder = ["a.CSV"; "b.csv"; "c.csv"].
Proof. vm_compute. reflexivity. Qed.

(** * The claims *)

Local Open Scope Z_scope.

(** C1: for every sequence of files and every cutoff between 1 and the sum
  of all counts, [find_cutoff_location] returns the index [k] of the first
  file whose cumulative count reaches the cutoff: the count through file
  [k] is at least the cutoff, the count through every earlier file,
  and so through the prior one, is below it, and the line in the file is
  the cutoff minus the cumulative count before that file. *)
Theorem find_cutoff_location_first_file (infos : list CsvInfo) (cutoff : Z) :
1 ≤ cutoff ≤ total_lines infos →
∃ k : nat,
  find_cutoff_location infos cutoff
    = Ok (Z.of_nat k, cutoff - cumulative infos k) ∧
  (k < length infos)%nat ∧
  cutoff ≤ cumulative infos (S k) ∧
  cumulative infos k < cutoff ∧
  ∀ j : nat, (j < k)%nat → cumulative infos (S j) < cutoff.
Proof.
intros Hcut.
destruct (find_cutoff_location_in_range infos cutoff Hcut)
  as (k & info & Hloc & Hinfo & Hbetween & Hfirst).
exists k. rewrite (cumulative_S _ _ _ Hinfo).
repeat split; try done; try lia.
by apply lookup_lt_Some in Hinfo.
Qed.

Lemma find_cutoff_location_first_file_witness :
1 ≤ 108 ≤ total_lines infos_40_40_40 ∧
∃ k : nat,
  find_cutoff_location infos_40_40_40 108
    = Ok (Z.of_nat k, 108 - cumulative infos_40_40_40 k) ∧
  (k < length infos_40_40_40)%nat ∧
  108 ≤ cumulative infos_40_40_40 (S k) ∧
  cumulative infos_40_40_40 k < 108 ∧
  ∀ j : nat, (j < k)%nat → cumulative infos_40_40_40 (S j) < 108.
Proof.
split; [cbn; lia|].
apply (find_cutoff_location_first_file infos_40_40_40 108). cbn. lia.
Defined.

(** C2: for every file and every integer line number, in range or not,
  [split_cutoff_file] returns counts whose sum is the number [n] of data
  rows of the file: the clamp [k = max(1, min(line, n + 1))] puts [k - 1]
  rows before and the other [n - (k - 1)] after. *)
Theorem split_cutoff_file_counts (dir : gmap string (list (list string)))
  (cutoff_file out_before out_after : string) (assume_header : bool)
  (cutoff_line_in_file : Z) (rows : list (list string)) :
dir !! cutoff_file = Some rows →
∃ dir' before_count after_count,
  split_cutoff_file dir cutoff_file out_before out_after assume_header
      cutoff_line_in_file
    = Ok (dir', (before_count, after_count)) ∧
  let n := Z.of_nat (length (data_rows_of rows assume_header)) in
  let k := clamp_line n cutoff_line_in_file in
  before_count + after_count = n ∧
  before_count = k - 1 ∧
  after_count = n - (k - 1) ∧
  n = count_rows rows assume_header.
Proof.
intros Hrows. unfold split_cutoff_file. rewrite Hrows.
pose proof (split_rows_lengths (data_rows_of rows assume_header)
              cutoff_line_in_file) as [Hb Ha].
destruct (split_rows _ _) as [before after]. cbn [fst snd] in *.
eexists _, _, _. split; [reflexivity|]. cbv zeta.
rewrite count_rows_data. lia.
Qed.

Lemma split_cutoff_file_counts_witness :
∃ dir' before_count after_count,
  split_cutoff_file sample_folder "a.CSV" "x.csv" "y.csv" true 99
    = Ok (dir', (before_count, after_count)) ∧
  let n := Z.of_nat (length (data_rows_of
             [["h"]; ["4"]; ["5"]; ["6"]; ["7"]] true)) in
  let k := clamp_line n 99 in
  before_count + after_count = n ∧
  before_count = k - 1 ∧
  after_count = n - (k - 1) ∧
  n = count_rows [["h"]; ["4"]; ["5"]; ["6"]; ["7"]] true.
Proof.
apply (split_cutoff_file_counts sample_folder "a.CSV" "x.csv" "y.csv" true 99).
reflexivity.
Defined.

(** C3: for every file and every line number, the rows before the cutoff
  followed by the rows at or after it are the data rows of the file, in
  order; the same holds of the data rows of the two files written. *)
Theorem split_cutoff_file_round_trip (dir : gmap string (list (list string)))
  (cutoff_file out_before out_after : string) (assume_header : bool)
  (cutoff_line_in_file : Z) (rows : list (list string)) :
dir !! cutoff_file = Some rows →
let header := header_of rows assume_header in
let data_rows := data_rows_of rows assume_header in
∃ dir' counts before after,
  split_cutoff_file dir cutoff_file out_before out_after assume_header
      cutoff_line_in_file = Ok (dir', counts) ∧
  split_rows data_rows cutoff_line_in_file = (before, after) ∧
  before ++ after = data_rows ∧
  dir' !! out_after = Some (csv_records header after) ∧
  (out_before ≠ out_after →
     dir' !! out_before = Some (csv_records header before)) ∧
  data_rows_of (csv_records header before) assume_header
    ++ data_rows_of (csv_records header after) assume_header = data_rows.
Proof.
intros Hrows header data_rows. unfold split_cutoff_file. rewrite Hrows.
pose proof (split_rows_app data_rows cutoff_line_in_file) as Happ.
fold header data_rows.
destruct (split_rows data_rows cutoff_line_in_file) as [before after].
cbn [fst snd] in Happ.
eexists _, _, before, after. split; [reflexivity|].
split; [done|]. split; [done|]. unfold write_csv. split; [|split].
- apply lookup_insert_eq.
- intros Hne. rewrite lookup_insert_ne by done. apply lookup_insert_eq.
- unfold header. rewrite !data_rows_of_written.
  destruct rows as [|r rows]; [|done].
  destruct before, after; try done.
Qed.

Lemma split_cutoff_file_round_trip_witness :
let header := header_of sample_rows true in
let data_rows := data_rows_of sample_rows true in
∃ dir' counts before after,
  split_cutoff_file {[ "f.csv" := sample_rows ]} "f.csv"
      "f_before_cutoff.csv" "f_at_or_after_cutoff.csv" true 4
    = Ok (dir', counts) ∧
  split_rows data_rows 4 = (before, after) ∧
  before ++ after = data_rows ∧
  dir' !! "f_at_or_after_cutoff.csv" = Some (csv_records header after) ∧
  ("f_before_cutoff.csv" ≠ "f_at_or_after_cutoff.csv" →
     dir' !! "f_before_cutoff.csv" = Some (csv_records header before)) ∧
  data_rows_of (csv_records header before) true
    ++ data_rows_of (csv_records header after) true = data_rows.
Proof.
apply (split_cutoff_file_round_trip {[ "f.csv" := sample_rows ]} "f.csv"
         "f_before_cutoff.csv" "f_at_or_after_cutoff.csv" true 4 sample_rows).
reflexivity.
Defined.

(** C4, as the code has it: for every total from 1 on whose nine tenths are
    below 2^50, [compute_cutoff] is the ceiling of the exact rational
    [9 * total / 10] when rounding up and its floor otherwise.  Beyond that
    the double nearest to the quotient can be an integer on the other side
    of it. *)
Theorem compute_cutoff_exact (round_up : bool) (total : Z) :
  1 ≤ total →
  9 * total < 10 * 2 ^ 50 →
  compute_cutoff round_up total = Ok (spec_cutoff round_up total).
Proof. apply compute_cutoff_small. Qed.

Lemma compute_cutoff_exact_witness :
  1 ≤ 101 ∧ 9 * 101 < 10 * 2 ^ 50 ∧
  compute_cutoff true 101 = Ok (spec_cutoff true 101) ∧
  compute_cutoff true 101 = Ok 91.
Proof.
  split; [lia|]. split; [lia|]. split; [|reflexivity].
  apply (compute_cutoff_exact true 101); lia.
Defined.

(** C4 as stated fails: at 1250999896491811 rows the exact quotient is
    1125899906842629.9, the nearest double is 1125899906842630, and the
    floor policy returns it; at 1250999896491809 rows the ceiling policy
    returns 1125899906842628 for 1125899906842628.1. *)
Lemma compute_cutoff_not_exact :
  compute_cutoff false 1250999896491811 = Ok 1125899906842630 ∧
  spec_cutoff false 1250999896491811 = 1125899906842629 ∧
  compute_cutoff true 1250999896491809 = Ok 1125899906842628 ∧
  spec_cutoff true 1250999896491809 = 1125899906842629 ∧
  ¬ (∀ (round_up : bool) (total : Z),
       1 ≤ total →
       compute_cutoff round_up total = Ok (spec_cutoff round_up total)).
Proof.
  split; [vm_compute; reflexivity|]. split; [vm_compute; reflexivity|].
  split; [vm_compute; reflexivity|]. split; [vm_compute; reflexivity|].
  intros Hall. specialize (Hall false 1250999896491811 ltac:(lia)).
  vm_compute in Hall. discriminate.
Qed.

(** C5, as the code has it: for every total from 0 on whose nine tenths
    round to a finite double, that is with
    [9 * total / 10 < 2^1024 - 2^970], and for both policies,
    [compute_cutoff] returns a cutoff between 0 and the total; and the
    cutoff of 0 is 0. *)
Theorem compute_cutoff_bounds (round_up : bool) (total : Z) :
  0 ≤ total →
  9 * total < 10 * (2 ^ 1024 - 2 ^ 970) →
  (∃ cutoff, compute_cutoff round_up total = Ok cutoff ∧ 0 ≤ cutoff ≤ total) ∧
  compute_cutoff round_up 0 = Ok 0.
Proof.
  intros Hnonneg Hfin. split; [|reflexivity].
  destruct (decide (total = 0)) as [->|Hpos].
  - exists 0. split; [reflexivity|lia].
  - destruct (compute_cutoff_range round_up total) as (c & Hc & Hrange & _);
      [lia..|]. by exists c.
Qed.

Lemma compute_cutoff_bounds_witness :
  0 ≤ 120 ∧ 9 * 120 < 10 * (2 ^ 1024 - 2 ^ 970) ∧
  (∃ cutoff, compute_cutoff false 120 = Ok cutoff ∧ 0 ≤ cutoff ≤ 120) ∧
  compute_cutoff false 0 = Ok 0.
Proof.
  split; [lia|]. split; [vm_compute; reflexivity|].
  apply (compute_cutoff_bounds false 120); [lia|vm_compute; reflexivity].
Defined.

(** C5 as stated fails: a total of 2^1025 is not negative, and nine tenths
    of it are beyond the largest double: the division raises
    [OverflowError] and there is no cutoff. *)
Lemma compute_cutoff_overflow :
  0 ≤ 2 ^ 1025 ∧
  compute_cutoff false (2 ^ 1025) = Raise OverflowError ∧
  compute_cutoff true (2 ^ 1025) = Raise OverflowError ∧
  ¬ (∀ (round_up : bool) (total : Z),
       0 ≤ total →
       ∃ cutoff, compute_cutoff round_up total = Ok cutoff ∧ 0 ≤ cutoff ≤ total).
Proof.
  split; [vm_compute; discriminate|].
  split; [vm_compute; reflexivity|]. split; [vm_compute; reflexivity|].
  intros Hall.
  destruct (Hall false (2 ^ 1025)) as (cutoff & Hcut & _).
  - vm_compute; discriminate.
  - vm_compute in Hcut. discriminate.
Qed.

(** C7: for every non-empty sequence of files with counts that are not
    negative and every cutoff above the sum of all counts,
    [find_cutoff_location] returns the index of the last file and that
    file's data line count. *)
Theorem find_cutoff_location_beyond_total (infos : list CsvInfo) (cutoff : Z) :
  infos ≠ [] →
  Forall (fun info => 0 ≤ data_line_count info) infos →
  total_lines infos < cutoff →
  ∃ info,
    last infos = Some info ∧
    find_cutoff_location infos cutoff
      = Ok (Z.of_nat (length infos) - 1, data_line_count info).
Proof.
  intros Hne Hall Hgt. unfold find_cutoff_location.
  pose proof (total_lines_nonneg infos Hall).
  destruct (Z.leb_spec cutoff 0) as [?|_]; [lia|].
  rewrite (find_cutoff_loop_beyond infos cutoff Hall Hgt).
  destruct (last infos) as [info|] eqn:Hlast; [by exists info|].
  by apply last_None in Hlast.
Qed.

Lemma find_cutoff_location_beyond_total_witness :
  ∃ info,
    last infos_40_40_40 = Some info ∧
    find_cutoff_location infos_40_40_40 121
      = Ok (Z.of_nat (length infos_40_40_40) - 1, data_line_count info).
Proof.
  apply (find_cutoff_location_beyond_total infos_40_40_40 121).
  - discriminate.
  - repeat constructor; cbn; lia.
  - cbn. lia.
Defined.

(** C10: for every sequence of files and every cutoff between 1 and the sum
    of all counts, the file that [find_cutoff_location] returns has at least
    one data row, the line returned is between 1 and that file's count, and
    the clamp of [split_cutoff_file] leaves the line as it is. *)
Theorem located_line_within_file (infos : list CsvInfo) (cutoff : Z) :
  1 ≤ cutoff ≤ total_lines infos →
  ∃ (k : nat) (info : CsvInfo) (line : Z),
    find_cutoff_location infos cutoff = Ok (Z.of_nat k, line) ∧
    infos !! k = Some info ∧
    1 ≤ data_line_count info ∧
    1 ≤ line ≤ data_line_count info ∧
    clamp_line (data_line_count info) line = line.
Proof.
  intros Hcut.
  destruct (find_cutoff_location_in_range infos cutoff Hcut)
    as (k & info & Hloc & Hinfo & Hbetween & _).
  exists k, info, (cutoff - cumulative infos k).
  split; [done|]. split; [done|].
  assert (1 ≤ cutoff - cumulative infos k ≤ data_line_count info) by lia.
  split; [lia|]. split; [done|]. apply clamp_line_id. lia.
Qed.

Lemma located_line_within_file_witness :
  1 ≤ 108 ≤ total_lines infos_40_40_40 ∧
  ∃ (k : nat) (info : CsvInfo) (line : Z),
    find_cutoff_location infos_40_40_40 108 = Ok (Z.of_nat k, line) ∧
    infos_40_40_40 !! k = Some info ∧
    1 ≤ data_line_count info ∧
    1 ≤ line ≤ data_line_count info ∧
    clamp_line (data_line_count info) line = line.
Proof.
  split; [cbn; lia|].
  apply (located_line_within_file infos_40_40_40 108). cbn. lia.
Defined.




(** C8: when the folder has [.csv] files and their data rows total 0,
    [main] exits with the zero-rows error once the files are counted, and
    leaves the file system as it found it: no output folder is made and no
    file is written. *)
Theorem main_zero_rows (cfg : Config) (fs : FS)
    (folder : gmap string (list (list string))) :
  input_folder fs = Some folder →
  list_csv_files folder ≠ [] →
  total_lines (infos_of folder (ASSUME_HEADER cfg) (list_csv_files folder)) = 0 →
  count_all (list_csv_files folder) (ASSUME_HEADER cfg) fs
    = (Ok (infos_of folder (ASSUME_HEADER cfg) (list_csv_files folder)), fs) ∧
  main cfg fs = (Raise ZeroRowsError, fs).
Proof.
  intros Hin Hne Hzero. split.
  - apply count_all_Ok; [done|].
    intros p Hp. by apply elem_of_list_csv_files in Hp as [_ ?].
  - rewrite (main_unfold cfg fs folder Hin Hne). cbv zeta.
    rewrite Hzero. reflexivity.
Qed.

Lemma main_zero_rows_witness :
  count_all (list_csv_files header_only_folder) true
      (fresh_fs header_only_folder)
    = (Ok (infos_of header_only_folder true
             (list_csv_files header_only_folder)),
       fresh_fs header_only_folder) ∧
  main default_config (fresh_fs header_only_folder)
    = (Raise ZeroRowsError, fresh_fs header_only_folder).
Proof.
  apply (main_zero_rows default_config (fresh_fs header_only_folder)
           header_only_folder).
  - reflexivity.
  - vm_compute. discriminate.
  - vm_compute. reflexivity.
Defined.

(** C9: with the floor policy the cutoff of a total of 1 is 0, the location
    of a cutoff of 0 is the pair (-1, -1), and [main] on a folder whose data
    rows total 1 exits with the zero-cutoff error and leaves the file system
    as it found it: a positive total with no partition. *)
Theorem main_single_row_floor :
  compute_cutoff false 1 = Ok 0 ∧
  (∀ infos, find_cutoff_location infos 0 = Ok (-1, -1)) ∧
  ∀ (cfg : Config) (fs : FS) (folder : gmap string (list (list string))),
    USE_CEIL_FOR_CUTOFF cfg = false →
    input_folder fs = Some folder →
    total_lines (infos_of folder (ASSUME_HEADER cfg) (list_csv_files folder)) = 1 →
    main cfg fs = (Raise ZeroCutoffError, fs).
Proof.
  split; [vm_compute; reflexivity|]. split; [done|].
  intros cfg fs folder Hfloor Hin Hone.
  assert (list_csv_files folder ≠ []) as Hne.
  { intros Hnil. rewrite Hnil in Hone. discriminate. }
  rewrite (main_unfold cfg fs folder Hin Hne). cbv zeta.
  rewrite Hone, Hfloor.
  replace (compute_cutoff false 1) with (Ok (A:=Z) 0) by (vm_compute; reflexivity).
  reflexivity.
Qed.

Lemma main_single_row_floor_witness :
  total_lines (infos_of single_row_folder true
                 (list_csv_files single_row_folder)) = 1 ∧
  main default_config (fresh_fs single_row_folder)
    = (Raise ZeroCutoffError, fresh_fs single_row_folder).
Proof.
  split; [vm_compute; reflexivity|].
  destruct main_single_row_floor as (_ & _ & Hmain).
  apply (Hmain default_config (fresh_fs single_row_folder) single_row_folder).
  - reflexivity.
  - reflexivity.
  - vm_compute. reflexivity.
Defined.

(** * Further properties of the script *)

(** ** The listing *)

(** X1: [list_csv_files] returns the names of the folder's files whose
    suffix is [.csv] in any letter case, each once, in ascending order of
    name. *)
Theorem list_csv_files_sorted (folder : gmap string (list (list string))) :
  Sorted String.le (list_csv_files folder) ∧
  NoDup (list_csv_files folder) ∧
  ∀ p : string,
    p ∈ list_csv_files folder
    ↔ lower (suffix p) = ".csv" ∧ is_Some (folder !! p).
Proof.
  split; [apply Sorted_merge_sort; apply _|].
  split; [apply NoDup_list_csv_files|].
  intros p. rewrite elem_of_list_csv_files. unfold is_csv.
  by rewrite bool_decide_eq_true.
Qed.

(** ** Locating *)

Lemma cumulative_mono (infos : list CsvInfo) (j k : nat) :
  Forall (fun info => 0 ≤ data_line_count info) infos →
  (j ≤ k)%nat →
  cumulative infos j ≤ cumulative infos k.
Proof.
  intros Hall. revert j k.
  induction Hall as [|x infos Hx Hall IH]; intros j k Hjk.
  - by destruct j, k.
  - destruct j as [|j], k as [|k]; try lia.
    + rewrite cumulative_0, cumulative_cons.
      specialize (IH 0%nat k ltac:(lia)). rewrite cumulative_0 in IH. lia.
    + rewrite !cumulative_cons. specialize (IH j k ltac:(lia)). lia.
Qed.

Lemma find_cutoff_location_returns (infos : list CsvInfo) (cutoff : Z) :
  infos ≠ [] →
  ∃ i line,
    find_cutoff_location infos cutoff = Ok (i, line) ∧
    -1 ≤ i < Z.of_nat (length infos) ∧
    (i < 0 ↔ cutoff ≤ 0).
Proof.
  unfold find_cutoff_location.
  intros Hne. destruct (Z.leb_spec cutoff 0) as [Hle|Hgt].
  - exists (-1), (-1). split; [done|]. lia.
  - pose proof (find_cutoff_loop_spec cutoff infos 0 0) as Hloop.
    destruct (find_cutoff_loop infos 0 0 cutoff) as [[idx line]|].
    + destruct Hloop as (k & Hk & -> & _).
      eexists _, _. split; [done|]. lia.
    + destruct (last infos) as [info|] eqn:Hlast.
      * eexists _, _. split; [done|].
        destruct infos; [done|]. cbn [length]. lia.
      * by apply last_None in Hlast.
Qed.

(** X3: on an empty list [find_cutoff_location] raises [IndexError] for a
    positive cutoff.  On a list that is not empty it always returns, the
    index returned is -1 or an index of the list, and it is negative
    exactly when the cutoff is not positive. *)
Theorem find_cutoff_location_index (infos : list CsvInfo) (cutoff : Z) :
  (infos = [] → 0 < cutoff →
   find_cutoff_location infos cutoff = Raise IndexError) ∧
  (infos ≠ [] →
   ∃ i line,
     find_cutoff_location infos cutoff = Ok (i, line) ∧
     -1 ≤ i < Z.of_nat (length infos) ∧
     (i < 0 ↔ cutoff ≤ 0)).
Proof.
  split; [|apply find_cutoff_location_returns].
  intros -> Hpos. unfold find_cutoff_location.
  by destruct (Z.leb_spec cutoff 0); [lia|].
Qed.

Lemma find_cutoff_location_index_witness :
  find_cutoff_location [] 1 = Raise IndexError ∧
  ∃ i line,
    find_cutoff_location infos_40_40_40 50 = Ok (i, line) ∧
    -1 ≤ i < Z.of_nat (length infos_40_40_40) ∧
    (i < 0 ↔ 50 ≤ 0).
Proof.
  split.
  - apply (proj1 (find_cutoff_location_index [] 1)); [reflexivity|lia].
  - apply (proj2 (find_cutoff_location_index infos_40_40_40 50)).
    discriminate.
Defined.

(** X4: a larger cutoff is never located in an earlier file: for two
    cutoffs between 1 and the total, the index returned for the smaller one
    is at most the index returned for the larger one. *)
Theorem find_cutoff_location_monotone (infos : list CsvInfo)
    (cutoff1 cutoff2 i1 i2 line1 line2 : Z) :
  1 ≤ cutoff1 →
  cutoff1 ≤ cutoff2 →
  cutoff2 ≤ total_lines infos →
  find_cutoff_location infos cutoff1 = Ok (i1, line1) →
  find_cutoff_location infos cutoff2 = Ok (i2, line2) →
  i1 ≤ i2.
Proof.
  intros H1 H12 H2 Hloc1 Hloc2.
  destruct (find_cutoff_location_in_range infos cutoff1 ltac:(lia))
    as (k1 & info1 & Hk1 & _ & _ & Hfirst1).
  destruct (find_cutoff_location_in_range infos cutoff2 ltac:(lia))
    as (k2 & info2 & Hk2 & Hinfo2 & Hbetween2 & _).
  rewrite Hk1 in Hloc1. rewrite Hk2 in Hloc2.
  injection Hloc1 as <- _. injection Hloc2 as <- _.
  destruct (decide (k2 < k1)%nat) as [Hlt|]; [|lia].
  specialize (Hfirst1 k2 Hlt).
  rewrite (cumulative_S _ _ _ Hinfo2) in Hfirst1. lia.
Qed.

Lemma find_cutoff_location_monotone_witness :
  ∃ i1 i2 line1 line2,
    find_cutoff_location infos_40_40_40 40 = Ok (i1, line1) ∧
    find_cutoff_location infos_40_40_40 41 = Ok (i2, line2) ∧
    i1 = 0 ∧ i2 = 1 ∧ i1 ≤ i2.
Proof.
  exists 0, 1, 40, 1.
  split; [reflexivity|]. split; [reflexivity|].
  split; [reflexivity|]. split; [reflexivity|].
  apply (find_cutoff_location_monotone infos_40_40_40 40 41 0 1 40 1);
    [lia|lia|cbn; lia|reflexivity|reflexivity].
Defined.

(** X5: with counts that are not negative, the file located is the only
    one that straddles the cutoff: whenever the cumulative count before
    file [k] is below the cutoff and the count through it reaches the
    cutoff, [find_cutoff_location] returns [k]. *)
Theorem find_cutoff_location_unique (infos : list CsvInfo) (cutoff : Z)
    (k : nat) :
  Forall (fun info => 0 ≤ data_line_count info) infos →
  (k < length infos)%nat →
  1 ≤ cutoff →
  cumulative infos k < cutoff ≤ cumulative infos (S k) →
  find_cutoff_location infos cutoff
    = Ok (Z.of_nat k, cutoff - cumulative infos k).
Proof.
  intros Hall Hk Hpos [Hlo Hhi].
  pose proof (cumulative_le_total infos (S k) Hall) as Htot.
  destruct (find_cutoff_location_in_range infos cutoff ltac:(lia))
    as (k' & info & Hloc & Hinfo & Hbetween & Hfirst).
  rewrite Hloc.
  destruct (Nat.lt_trichotomy k k') as [Hlt|[->|Hgt]]; [|done|].
  - specialize (Hfirst k Hlt). lia.
  - pose proof (cumulative_mono infos (S k') k Hall ltac:(lia)) as Hmono.
    rewrite (cumulative_S _ _ _ Hinfo) in Hmono. lia.
Qed.

Lemma find_cutoff_location_unique_witness :
  find_cutoff_location infos_40_40_40 108
    = Ok (Z.of_nat 2, 108 - cumulative infos_40_40_40 2).
Proof.
  apply (find_cutoff_location_unique infos_40_40_40 108 2).
  - repeat constructor; cbn; lia.
  - cbn. lia.
  - lia.
  - cbn. lia.
Defined.

(** ** Splitting *)

(** X6: the clamp at the two ends and in between: a line number of 1 or
    less puts every data row at or after the cutoff, a line number beyond
    the last row puts every data row before it, and a line number [k] in
    between puts the first [k - 1] rows before and the others after. *)
Theorem split_rows_ends (data_rows : list (list string)) (cutoff_line_in_file : Z) :
  (cutoff_line_in_file ≤ 1 →
   split_rows data_rows cutoff_line_in_file = ([], data_rows)) ∧
  (Z.of_nat (length data_rows) < cutoff_line_in_file →
   split_rows data_rows cutoff_line_in_file = (data_rows, [])) ∧
  (1 ≤ cutoff_line_in_file ≤ Z.of_nat (length data_rows) + 1 →
   split_rows data_rows cutoff_line_in_file
     = (take (Z.to_nat (cutoff_line_in_file - 1)) data_rows,
        drop (Z.to_nat (cutoff_line_in_file - 1)) data_rows)).
Proof.
  unfold split_rows, slice_to, slice_from.
  set (n := Z.of_nat (length data_rows)).
  pose proof (clamp_line_range n cutoff_line_in_file ltac:(lia)) as Hk.
  rewrite slice_bound_nonneg by lia.
  unfold clamp_line in *. split; [|split]; intros Hline.
  - replace (Z.to_nat _) with 0%nat by lia. done.
  - replace (Z.to_nat _) with (length data_rows) by lia.
    by rewrite firstn_all, drop_all.
  - by replace (Z.max 0 (Z.max 1 (Z.min cutoff_line_in_file (n + 1)) - 1))
      with (cutoff_line_in_file - 1) by lia.
Qed.

Lemma split_rows_ends_witness :
  split_rows (data_rows_of sample_rows true) 0
    = ([], data_rows_of sample_rows true) ∧
  split_rows (data_rows_of sample_rows true) 6
    = (data_rows_of sample_rows true, []) ∧
  split_rows (data_rows_of sample_rows true) 4
    = (take (Z.to_nat (4 - 1)) (data_rows_of sample_rows true),
       drop (Z.to_nat (4 - 1)) (data_rows_of sample_rows true)).
Proof.
  destruct (split_rows_ends (data_rows_of sample_rows true) 0) as (H0 & _ & _).
  destruct (split_rows_ends (data_rows_of sample_rows true) 6) as (_ & H6 & _).
  destruct (split_rows_ends (data_rows_of sample_rows true) 4) as (_ & _ & H4).
  split; [apply H0; lia|]. split; [apply H6; cbn; lia|]. apply H4. cbn. lia.
Defined.

(** X7: the two files that [split_cutoff_file] writes agree with what it
    returns and with the file it read: counting the data rows of either
    output as [count_data_lines] does gives the count returned for it, and
    either output has the header of the cutoff file, or none when the
    cutoff file has none. *)
Theorem split_cutoff_file_recount (dir dir' : gmap string (list (list string)))
    (cutoff_file out_before out_after : string) (assume_header : bool)
    (cutoff_line_in_file before_count after_count : Z)
    (rows : list (list string)) :
  dir !! cutoff_file = Some rows →
  out_before ≠ out_after →
  split_cutoff_file dir cutoff_file out_before out_after assume_header
      cutoff_line_in_file = Ok (dir', (before_count, after_count)) →
  ∃ rows_before rows_after,
    dir' !! out_before = Some rows_before ∧
    dir' !! out_after = Some rows_after ∧
    count_rows rows_before assume_header = before_count ∧
    count_rows rows_after assume_header = after_count ∧
    header_of rows_before assume_header = header_of rows assume_header ∧
    header_of rows_after assume_header = header_of rows assume_header.
Proof.
  intros Hrows Hne. unfold split_cutoff_file. rewrite Hrows.
  pose proof (split_rows_app (data_rows_of rows assume_header)
                cutoff_line_in_file) as Happ.
  destruct (split_rows _ _) as [before after]. cbn [fst snd] in Happ.
  intros [= <- <- <-]. unfold write_csv.
  eexists _, _. split; [|split; [apply lookup_insert_eq|]].
  { rewrite lookup_insert_ne by done. apply lookup_insert_eq. }
  rewrite !count_rows_data, !data_rows_of_written.
  destruct rows as [|r rows].
  - destruct before, after; try done.
    by destruct assume_header.
  - by destruct assume_header.
Qed.

Lemma split_cutoff_file_recount_witness :
  ∃ rows_before rows_after,
    sample_split !! "b.csv" = Some rows_before ∧
    sample_split !! "a.csv" = Some rows_after ∧
    count_rows rows_before true = 3 ∧
    count_rows rows_after true = 2 ∧
    header_of rows_before true = header_of sample_rows true ∧
    header_of rows_after true = header_of sample_rows true.
Proof.
  apply (split_cutoff_file_recount {[ "f.csv" := sample_rows ]} sample_split
           "f.csv" "b.csv" "a.csv" true 4
           3 2 sample_rows).
  - apply lookup_singleton_eq.
  - discriminate.
  - vm_compute. reflexivity.
Defined.

(** ** The cutoff under the two policies *)

Section policies.
Import Float.

(** The ceiling of a double is its floor or one more. *)
Lemma float_floor_ceil (x : Float.float) :
  Float.floor x ≤ Float.ceil x ≤ Float.floor x + 1.
Proof.
  unfold Float.floor, Float.ceil.
  destruct (Z.leb_spec 0 (Float.expo x)) as [|Hneg]; [lia|].
  pose proof (Z.pow_pos_nonneg 2 (- Float.expo x) ltac:(lia) ltac:(lia)) as HD.
  set (D := 2 ^ (- Float.expo x)) in *. clearbody D.
  set (m := Float.mant x). clearbody m.
  pose proof (Z.div_mod m D ltac:(lia)) as Hm.
  pose proof (Z.mod_pos_bound m D HD) as Hr.
  set (q := m / D) in *. set (r := m mod D) in *. clearbody q r.
  replace (D * q) with (q * D) in Hm by ring.
  destruct (decide (r = 0)) as [Hz|Hnz].
  - rewrite (div_between (- m) D (- q)) by lia. lia.
  - rewrite (div_between (- m) D (- (q + 1))) by lia. lia.
Qed.

(** Nine tenths of a total of at least 1, as a double: the division
    overflows or gives a double whose floor and ceiling are as follows. *)
Lemma nine_tenths_double (total : Z) :
  1 ≤ total →
  Float.int_true_divide (9 * total) 10 = Raise OverflowError ∨
  ∃ x,
    Float.int_true_divide (9 * total) 10 = Ok x ∧
    0 ≤ Float.floor x ∧
    Float.ceil x ≤ total ∧
    (2 ≤ total → 1 ≤ Float.floor x) ∧
    (total mod 10 = 0 → Float.floor x = Float.ceil x).
Proof.
  intros Ht. rewrite int_true_divide_ten by lia. cbv zeta.
  destruct (ulp_exp_ten (9 * total) ltac:(lia)) as (Hd & Hbin & Hexp).
  set (d := Z.log2 (9 * total) - 3) in *.
  set (e := Float.ulp_exp (9 * total) 10) in *. clearbody e d.
  pose proof (Z.pow_pos_nonneg 2 d ltac:(lia) Hd) as HP.
  destruct (Z.leb_spec 0 e) as [Hpos|Hneg]; cbn [andb].
  - (* the double is an integer *)
    destruct (_ <=? _); [by left|right].
    assert (2 ^ 52 * 2 ^ e ≤ 2 ^ d) as HU.
    { rewrite <- Z.pow_add_r by lia. apply Z.pow_le_mono_r; lia. }
    clear Hexp.
    pose proof (Z.pow_pos_nonneg 2 e ltac:(lia) Hpos) as HUpos.
    unfold Float.up, Float.down.
    rewrite (Z.max_r 0 e), (Z.max_l 0 (- e)) by lia.
    rewrite Z.pow_0_r, Z.mul_1_r.
    pose proof (round_half_even_near (9 * total) (10 * 2 ^ e) ltac:(lia)) as Hm.
    pose proof (round_half_even_nonneg (9 * total) (10 * 2 ^ e)
                  ltac:(lia) ltac:(lia)) as Hm0.
    set (m := round_half_even (9 * total) (10 * 2 ^ e)) in *. clearbody m.
    eexists. split; [reflexivity|].
    unfold Float.floor, Float.ceil. cbn [Float.mant Float.expo].
    destruct (Z.leb_spec 0 e) as [_|?]; [|lia].
    set (U := 2 ^ e) in *. clearbody U.
    pose proof (Z.mul_nonneg_nonneg m U Hm0 ltac:(lia)) as HmU.
    replace (10 * U * m) with (10 * (m * U)) in Hm by ring.
    repeat split; lia.
  - (* the double has a fractional part *)
    right. eexists. split; [reflexivity|].
    pose proof (float_floor_ceil
                  {| Float.mant := round_half_even (9 * total * Float.down e)
                                     (10 * Float.up e);
                     Float.expo := e |}) as Hgap.
    revert Hgap.
    unfold Float.up, Float.down, Float.floor, Float.ceil.
    cbn [Float.mant Float.expo].
    destruct (Z.leb_spec 0 e) as [?|_]; [lia|].
    rewrite (Z.max_l 0 e), (Z.max_r 0 (- e)) by lia.
    rewrite Z.pow_0_r, Z.mul_1_r. intros Hgap.
    pose proof (Z.pow_pos_nonneg 2 (- e) ltac:(lia) ltac:(lia)) as HD.
    assert (2 ^ 52 ≤ 2 ^ d * 2 ^ (- e)) as HPD.
    { rewrite <- Z.pow_add_r by lia. apply Z.pow_le_mono_r; lia. }
    set (D := 2 ^ (- e)) in *. clearbody D. clear Hexp.
    pose proof (Z.mul_le_mono_nonneg_r (8 * 2 ^ d) (9 * total) D
                  ltac:(lia) ltac:(lia)) as HTD.
    pose proof (round_half_even_near (9 * total * D) 10 ltac:(lia)) as Hm.
    pose proof (round_half_even_nonneg (9 * total * D) 10
                  ltac:(lia) ltac:(lia)) as Hm0.
    set (m := round_half_even (9 * total * D) 10) in *. clearbody m.
    assert (m ≤ D * total) as Hle by lia.
    split; [apply Z.div_pos; lia|]. split; [|split].
    + pose proof (Z.div_le_lower_bound (- m) D (- total) HD ltac:(lia)). lia.
    + intros Htwo.
      pose proof (Z.mul_le_mono_nonneg_r 2 total D ltac:(lia) Htwo).
      apply Z.div_le_lower_bound; lia.
    + intros Hten. apply Z.mod_divide in Hten as [k ->]; [|lia].
      assert (m = 9 * k * D) as -> by lia.
      rewrite Z.div_mul by lia.
      replace (- (9 * k * D)) with (- (9 * k) * D) by ring.
      rewrite Z.div_mul by lia. lia.
Qed.

Lemma compute_cutoff_unfold (round_up : bool) (total : Z) :
  1 ≤ total →
  compute_cutoff round_up total
    = match Float.int_true_divide (9 * total) 10 with
      | Ok raw => Ok (if round_up then Float.ceil raw else Float.floor raw)
      | Raise e => Raise e
      end.
Proof.
  intros Ht. unfold compute_cutoff.
  by destruct (Z.leb_spec total 0); [lia|].
Qed.

(** X9: the rounding policy moves the cutoff by at most one row and never
    decides whether there is one: for a total of at least 1,
    [compute_cutoff] raises [OverflowError] under both policies or returns
    under both, and then the ceiling cutoff is the floor cutoff or one
    more, the same when the total is a multiple of 10. *)
Theorem compute_cutoff_policies (total : Z) :
  1 ≤ total →
  (compute_cutoff false total = Raise OverflowError ∧
   compute_cutoff true total = Raise OverflowError) ∨
  ∃ lo hi,
    compute_cutoff false total = Ok lo ∧
    compute_cutoff true total = Ok hi ∧
    lo ≤ hi ≤ lo + 1 ∧
    (total mod 10 = 0 → lo = hi).
Proof.
  intros Ht. rewrite !compute_cutoff_unfold by done.
  destruct (nine_tenths_double total Ht) as [->|(x & -> & _ & _ & _ & Hten)].
  - by left.
  - right. exists (Float.floor x), (Float.ceil x).
    split; [done|]. split; [done|]. split; [apply float_floor_ceil|done].
Qed.

Lemma compute_cutoff_policies_witness :
  (compute_cutoff false 101 = Raise OverflowError ∧
   compute_cutoff true 101 = Raise OverflowError) ∨
  ∃ lo hi,
    compute_cutoff false 101 = Ok lo ∧
    compute_cutoff true 101 = Ok hi ∧
    lo ≤ hi ≤ lo + 1 ∧
    (101 mod 10 = 0 → lo = hi).
Proof. apply (compute_cutoff_policies 101). lia. Defined.

Lemma compute_cutoff_zero_iff (round_up : bool) (total cutoff : Z) :
  compute_cutoff round_up total = Ok cutoff →
  0 ≤ cutoff ∧ (cutoff = 0 ↔ total ≤ (if round_up then 0 else 1)).
Proof.
  intros Hcut. destruct (Z.le_gt_cases total 0) as [Hle|Hpos].
  - unfold compute_cutoff in Hcut.
    destruct (Z.leb_spec total 0); [|lia].
    injection Hcut as <-. destruct round_up; lia.
  - destruct (decide (total = 1)) as [->|Hne].
    + destruct round_up; vm_compute in Hcut; injection Hcut as <-; lia.
    + rewrite compute_cutoff_unfold in Hcut by lia.
      destruct (nine_tenths_double total ltac:(lia))
        as [Hov|(x & Hx & _ & _ & Hone & _)].
      * by rewrite Hov in Hcut.
      * rewrite Hx in Hcut. injection Hcut as <-.
        specialize (Hone ltac:(lia)).
        pose proof (float_floor_ceil x). destruct round_up; lia.
Qed.

(** X10: when the cutoff is 0.  Whenever [compute_cutoff] returns, the
    floor cutoff is 0 exactly for totals of 1 or less and the ceiling
    cutoff exactly for totals of 0 or less: a positive total has cutoff 0
    only under the floor policy and only when it is 1. *)
Theorem compute_cutoff_zero (round_up : bool) (total cutoff : Z) :
  compute_cutoff round_up total = Ok cutoff →
  (cutoff = 0 ↔ total ≤ (if round_up then 0 else 1)).
Proof. intros Hcut. by apply compute_cutoff_zero_iff in Hcut as [_ ?]. Qed.

Lemma compute_cutoff_zero_witness :
  compute_cutoff false 1 = Ok 0 ∧ (0 = 0 ↔ 1 ≤ (if false then 0 else 1)) ∧
  compute_cutoff true 1 = Ok 1 ∧ (1 = 0 ↔ 1 ≤ (if true then 0 else 1)).
Proof.
  split; [reflexivity|]. split.
  - apply (compute_cutoff_zero false 1 0). reflexivity.
  - split; [reflexivity|]. apply (compute_cutoff_zero true 1 1). reflexivity.
Defined.

End policies.

(** ** The exits of [main] *)

Section failures.
Implicit Types (fs : FS) (folder : gmap string (list (list string))).
Implicit Types (cfg : Config).

Lemma bind_Raise_inv {A B : Type} (m : M A) (k : A → M B) fs e fs2 :
  (m ≫= k) fs = (Raise e, fs2) →
  m fs = (Raise e, fs2) ∨
  ∃ a fs1, m fs = (Ok a, fs1) ∧ k a fs1 = (Raise e, fs2).
Proof.
  unfold mbind, M_bind. destruct (m fs) as [[a|e'] fs1]; [eauto|].
  intros [= -> ->]. by left.
Qed.

Lemma compute_cutoff_raises (round_up : bool) (total : Z) e :
  compute_cutoff round_up total = Raise e → e = OverflowError.
Proof.
  destruct (Z.le_gt_cases total 0) as [Hle|Hpos].
  - unfold compute_cutoff. by destruct (Z.leb_spec total 0); [|lia].
  - rewrite compute_cutoff_unfold by lia.
    destruct (nine_tenths_double total ltac:(lia)) as [->|(x & -> & _)];
      [|done].
    by intros [= <-].
Qed.

Lemma transfer_file_Raise src d move fs e fs' :
  transfer_file src d move fs = (Raise e, fs') → e = FileNotFoundError.
Proof.
  unfold transfer_file.
  destruct (input_folder fs) as [dir|]; [|by intros [= <- _]].
  destruct (dest_dir d fs) as [out|]; [|by intros [= <- _]].
  destruct (dir !! src); [done|by intros [= <- _]].
Qed.

Lemma transfer_all_Raise files d move : ∀ sent fs e fs',
  transfer_all files d move sent fs = (Raise e, fs') → e = FileNotFoundError.
Proof.
  induction files as [|f files IH]; intros sent fs e fs' Hrun; [done|].
  cbn [transfer_all] in Hrun.
  apply bind_Raise_inv in Hrun as [Hrun|(p & fs1 & _ & Hrun)].
  - by apply transfer_file_Raise in Hrun.
  - by apply IH in Hrun.
Qed.

Lemma ensure_clean_dir_Raise d fs e fs' :
  ensure_clean_dir d fs ≠ (Raise e, fs').
Proof. unfold ensure_clean_dir. by destruct (dest_dir d fs). Qed.

Lemma split_file_Raise f ob oa h line fs e fs' :
  split_file f ob oa h line fs = (Raise e, fs') → e = FileNotFoundError.
Proof.
  unfold split_file, split_cutoff_file.
  destruct (input_folder fs) as [dir|]; [|by intros [= <- _]].
  destruct (dir !! f); [|by intros [= <- _]].
  by destruct (split_rows _ _).
Qed.

(** From the split on, a run over the files of the model raises no
    exception but [FileNotFoundError]. *)
Lemma split_and_transfer_Raise cfg infos total cutoff (idx : nat) line fs e fs' :
  is_Some (infos !! idx) →
  split_and_transfer cfg infos total cutoff (Z.of_nat idx) line fs
    = (Raise e, fs') →
  e = FileNotFoundError.
Proof.
  intros [info Hinfo]. unfold split_and_transfer. intros Hrun.
  apply bind_Raise_inv in Hrun as [Hrun|(a & fs0 & _ & Hrun)].
  { unfold lift, get_info in Hrun. by rewrite Nat2Z.id, Hinfo in Hrun. }
  apply bind_Raise_inv in Hrun as [Hrun|(u1 & fs1 & _ & Hrun)].
  { by apply ensure_clean_dir_Raise in Hrun. }
  apply bind_Raise_inv in Hrun as [Hrun|(u2 & fs2 & _ & Hrun)].
  { by apply ensure_clean_dir_Raise in Hrun. }
  apply bind_Raise_inv in Hrun as [Hrun|([b c] & fs3 & _ & Hrun)].
  { by apply split_file_Raise in Hrun. }
  apply bind_Raise_inv in Hrun as [Hrun|(s1 & fs4 & _ & Hrun)].
  { by apply transfer_all_Raise in Hrun. }
  apply bind_Raise_inv in Hrun as [Hrun|(s2 & fs5 & _ & Hrun)].
  { by apply transfer_all_Raise in Hrun. }
  apply bind_Raise_inv in Hrun as [Hrun|(p1 & fs6 & _ & Hrun)].
  { by apply transfer_file_Raise in Hrun. }
  apply bind_Raise_inv in Hrun as [Hrun|(p2 & fs7 & _ & Hrun)].
  { by apply transfer_file_Raise in Hrun. }
  done.
Qed.

Lemma infos_of_nonneg folder h files :
  Forall (fun info => 0 ≤ data_line_count info) (infos_of folder h files).
Proof.
  unfold infos_of. apply Forall_fmap, Forall_forall. intros p _. cbn.
  rewrite count_rows_data. lia.
Qed.

(** X12: which exit [main] takes.  Without the input folder it is the
    configuration exit; with no [.csv] file in it, the no-files exit.
    Otherwise [main] takes the zero-rows exit exactly when the data rows
    total 0, and the zero-cutoff exit exactly when they total 1 and the
    cutoff is rounded down. *)
Theorem main_exit_conditions cfg fs :
  match input_folder fs with
  | None => main cfg fs = (Raise ConfigError, fs)
  | Some folder =>
      let csv_files := list_csv_files folder in
      let total := total_lines (infos_of folder (ASSUME_HEADER cfg) csv_files) in
      (csv_files = [] → main cfg fs = (Raise EmptyInputError, fs)) ∧
      (csv_files ≠ [] →
       (main cfg fs = (Raise ZeroRowsError, fs) ↔ total = 0) ∧
       (main cfg fs = (Raise ZeroCutoffError, fs)
        ↔ USE_CEIL_FOR_CUTOFF cfg = false ∧ total = 1))
  end.
Proof.
  destruct (input_folder fs) as [folder|] eqn:Hin; last first.
  { unfold main. by rewrite Hin. }
  cbv zeta. split.
  { intros Hnil. unfold main. by rewrite Hin, Hnil. }
  intros Hne. rewrite (main_unfold cfg fs folder Hin Hne). cbv zeta.
  set (infos := infos_of folder (ASSUME_HEADER cfg) (list_csv_files folder)).
  pose proof (total_lines_nonneg infos (infos_of_nonneg _ _ _)) as Htot.
  assert (infos ≠ []) as Hinfos.
  { unfold infos, infos_of. by destruct (list_csv_files folder). }
  destruct (compute_cutoff _ _) as [cutoff|e0] eqn:Hcut.
  2:{ pose proof (compute_cutoff_raises _ _ _ Hcut) as ->.
      split; (split; [done|]).
      - intros Hzero. rewrite Hzero in Hcut. done.
      - intros [Hfloor Hone]. rewrite Hfloor, Hone in Hcut.
        vm_compute in Hcut. done. }
  apply compute_cutoff_zero_iff in Hcut as [Hcut0 Hzero].
  destruct (Z.eqb_spec (total_lines infos) 0) as [Hz|Hnz].
  { split; [done|]. split; [done|]. lia. }
  destruct (find_cutoff_location_returns infos cutoff Hinfos)
    as (i & line & -> & Hrange & Hneg).
  destruct (Z.ltb_spec i 0) as [Hi|Hi].
  - split; [split; [done|lia]|]. split; [intros _|done].
    destruct (USE_CEIL_FOR_CUTOFF cfg); lia.
  - assert (is_Some (infos !! Z.to_nat i)) as Hsome.
    { apply lookup_lt_is_Some_2. lia. }
    rewrite <- (Z2Nat.id i Hi).
    split; (split; [intros Hrun|]).
    + by apply split_and_transfer_Raise in Hrun.
    + lia.
    + by apply split_and_transfer_Raise in Hrun.
    + intros [Hfloor Hone]. rewrite Hfloor in Hzero. lia.
Qed.

Lemma main_exit_conditions_witness :
  main default_config (fresh_fs header_only_folder)
    = (Raise ZeroRowsError, fresh_fs header_only_folder) ∧
  main default_config (fresh_fs single_row_folder)
    = (Raise ZeroCutoffError, fresh_fs single_row_folder).
Proof.
  split.
  - pose proof (main_exit_conditions default_config
                  (fresh_fs header_only_folder)) as H.
    cbn [input_folder fresh_fs] in H. cbv zeta in H.
    destruct H as [_ H].
    apply H; [vm_compute; discriminate|vm_compute; reflexivity].
  - pose proof (main_exit_conditions default_config
                  (fresh_fs single_row_folder)) as H.
    cbn [input_folder fresh_fs] in H. cbv zeta in H.
    destruct H as [_ H].
    apply H; [vm_compute; discriminate|].
    split; vm_compute; reflexivity.
Defined.

End failures.

(** ** What the folders hold after a run *)

Section contents.
Implicit Types (fs : FS) (folder dir out : gmap string (list (list string))).
Implicit Types (cfg : Config).

Lemma compute_cutoff_le (round_up : bool) (total cutoff : Z) :
  1 ≤ total →
  compute_cutoff round_up total = Ok cutoff →
  cutoff ≤ total.
Proof.
  intros Ht. rewrite compute_cutoff_unfold by done.
  destruct (nine_tenths_double total Ht) as [->|(x & -> & _ & Hle & _)];
    [done|].
  intros [= <-]. pose proof (float_floor_ceil x). destruct round_up; lia.
Qed.

(** The counts of a completed run, as the summary reports them. *)
Lemma main_report_counts cfg fs fs' folder (rep : Summary) :
  input_folder fs = Some folder →
  main cfg fs = (Ok rep, fs') →
  let infos := infos_of folder (ASSUME_HEADER cfg) (list_csv_files folder) in
  ∃ (idx : nat) (info : CsvInfo),
    sum_cutoff_file_idx rep = Z.of_nat idx ∧
    infos !! idx = Some info ∧
    sum_total_lines rep = total_lines infos ∧
    1 ≤ sum_cutoff rep ≤ sum_total_lines rep ∧
    sum_before_rows rep = sum_cutoff_line_in_file rep - 1 ∧
    sum_before_rows rep + sum_after_rows rep = data_line_count info ∧
    cumulative infos idx + sum_before_rows rep = sum_cutoff rep - 1 ∧
    sum_after_rows rep + (total_lines infos - cumulative infos (S idx))
      = sum_total_lines rep - sum_cutoff rep + 1.
Proof.
  intros Hin Hrun infos.
  assert (list_csv_files folder ≠ []) as Hne.
  { intros Hnil. unfold main in Hrun. by rewrite Hin, Hnil in Hrun. }
  rewrite (main_unfold cfg fs folder Hin Hne) in Hrun. cbv zeta in Hrun.
  fold infos in Hrun.
  pose proof (total_lines_nonneg infos (infos_of_nonneg _ _ _)) as Htot.
  assert (infos ≠ []) as Hinfos.
  { unfold infos, infos_of. by destruct (list_csv_files folder). }
  destruct (compute_cutoff _ _) as [cutoff|] eqn:Hcut; [|done].
  destruct (Z.eqb_spec (total_lines infos) 0) as [|Hnz]; [done|].
  apply compute_cutoff_le in Hcut; [|lia].
  destruct (find_cutoff_location_returns infos cutoff Hinfos)
    as (i & line & Hloc & _ & Hneg).
  rewrite Hloc in Hrun.
  destruct (Z.ltb_spec i 0) as [|Hi]; [done|].
  destruct (find_cutoff_location_in_range infos cutoff ltac:(lia))
    as (k & info & Hloc' & Hinfo & Hbetween & _).
  rewrite Hloc' in Hloc. injection Hloc as <- <-.
  apply (split_and_transfer_counts _ _ _ _ _ _ _ folder) in Hrun
    as (info' & rows & Hinfo' & Hrows & -> & -> & -> & -> & -> & ->); [|done].
  rewrite Hinfo in Hinfo'. injection Hinfo' as <-.
  assert (data_line_count info
          = Z.of_nat (length (data_rows_of rows (ASSUME_HEADER cfg)))) as Hn.
  { unfold infos, infos_of in Hinfo. rewrite list_lookup_fmap in Hinfo.
    destruct (list_csv_files folder !! k) as [p|]; [|done].
    injection Hinfo as <-. cbn in *. by rewrite Hrows, count_rows_data. }
  destruct (split_rows_lengths (data_rows_of rows (ASSUME_HEADER cfg))
              (cutoff - cumulative infos k)) as [-> ->].
  rewrite <- Hn, clamp_line_id by lia.
  exists k, info. rewrite (cumulative_S _ _ _ Hinfo).
  repeat split; try done; lia.
Qed.

Lemma total_lines_app (l1 l2 : list CsvInfo) :
  total_lines (l1 ++ l2) = total_lines l1 + total_lines l2.
Proof.
  induction l1 as [|x l1 IH]; [done|].
  cbn [app]. rewrite !total_lines_cons, IH. lia.
Qed.

Lemma total_lines_drop (infos : list CsvInfo) (k : nat) :
  total_lines (drop k infos) = total_lines infos - cumulative infos k.
Proof.
  unfold cumulative. rewrite <- (take_drop k infos) at 2.
  rewrite total_lines_app. lia.
Qed.

(** Counting the rows of an output of the split, as [count_data_lines]
    does, gives the number of rows put into it. *)
Lemma count_rows_written rows h line :
  let parts := split_rows (data_rows_of rows h) line in
  count_rows (csv_records (header_of rows h) parts.1) h
    = Z.of_nat (length parts.1) ∧
  count_rows (csv_records (header_of rows h) parts.2) h
    = Z.of_nat (length parts.2).
Proof.
  cbv zeta. rewrite !count_rows_data, !data_rows_of_written.
  destruct rows as [|r rows]; [|done].
  assert (split_rows (data_rows_of [] h) line = ([], [])) as ->.
  { unfold split_rows, slice_to, slice_from. cbn [data_rows_of].
    by rewrite take_nil, drop_nil. }
  by destruct h.
Qed.

(** X13: how many rows go where.  In every completed run the summary has
    the cutoff between 1 and the total, the rows before the cutoff line as
    [before_rows], and [before_rows + after_rows] data rows in the cutoff
    file as it was counted; the rows counted in the files listed before the
    cutoff file and [before_rows] make [cutoff - 1], and [after_rows] and
    the rows counted in the files listed after it make the other
    [total - cutoff + 1].  When the input folder holds no file named like
    the two outputs of the cutoff file, the files that the run sent to the
    training folder hold, in that folder after the run and counted as
    [count_data_lines] counts, [cutoff - 1] data rows in all, and the files
    sent to the validation folder hold the other [total - cutoff + 1]. *)
Theorem main_row_accounting cfg fs fs' folder (rep : Summary) :
  input_folder fs = Some folder →
  main cfg fs = (Ok rep, fs') →
  let h := ASSUME_HEADER cfg in
  let csv_files := list_csv_files folder in
  let infos := infos_of folder h csv_files in
  (∃ (idx : nat) (info : CsvInfo),
     sum_cutoff_file_idx rep = Z.of_nat idx ∧
     infos !! idx = Some info ∧
     sum_total_lines rep = total_lines infos ∧
     1 ≤ sum_cutoff rep ≤ sum_total_lines rep ∧
     sum_before_rows rep = sum_cutoff_line_in_file rep - 1 ∧
     sum_before_rows rep + sum_after_rows rep = data_line_count info ∧
     cumulative infos idx + sum_before_rows rep = sum_cutoff rep - 1 ∧
     sum_after_rows rep + (total_lines infos - cumulative infos (S idx))
       = sum_total_lines rep - sum_cutoff rep + 1) ∧
  ((before_name (sum_cutoff_file rep) ∉ csv_files) →
   (after_name (sum_cutoff_file rep) ∉ csv_files) →
   ∃ train' val',
     train_dir fs' = Some train' ∧
     val_dir fs' = Some val' ∧
     total_lines (infos_of train' h (training_sent rep))
       = sum_cutoff rep - 1 ∧
     total_lines (infos_of val' h (validation_sent rep))
       = sum_total_lines rep - sum_cutoff rep + 1).
Proof.
  intros Hin Hrun h csv_files infos.
  destruct (main_report_counts cfg fs fs' folder rep Hin Hrun)
    as (k & info & Hk & Hinfo & Htot & Hrange & Hb1 & Hsum & Hcum1 & Hcum2).
  fold h csv_files infos in Hinfo, Htot, Hcum1, Hcum2.
  split; [by exists k, info|].
  intros Hfb Hfa.
  destruct (main_run_spec cfg fs folder rep fs' Hin Hrun Hfb Hfa)
    as (idx & rows & train' & val' & in' & Hidx & _ & _ & Htrain & Hval
        & Ht & Hv & _ & Hb & Hbefore & _ & Ha & Hafter & _ & _ & _ & _ & _
        & Hbr & Har).
  fold h csv_files in Htrain, Hval, Hb, Hbefore, Ha, Hafter, Hbr, Har.
  assert (idx = k) as -> by lia.
  destruct (count_rows_written rows h (sum_cutoff_line_in_file rep))
    as [Hcb Hca].
  exists train', val'. split; [done|]. split; [done|].
  rewrite Htrain, Hval. unfold infos_of.
  rewrite !fmap_app, !total_lines_app. cbn [fmap list_fmap].
  rewrite !total_lines_cons. cbn [data_line_count total_lines foldr].
  rewrite Hb, Ha. cbn [default id]. rewrite Hcb, Hca, <- Hbr, <- Har.
  assert ((λ p, {| path := p;
                   data_line_count := count_rows (default [] (train' !! p)) h |})
            <$> take k csv_files = take k infos) as ->.
  { unfold infos, infos_of. rewrite <- fmap_take. apply list_fmap_ext.
    intros i q Hq. apply list_elem_of_lookup_2 in Hq. by rewrite Hbefore. }
  assert ((λ p, {| path := p;
                   data_line_count := count_rows (default [] (val' !! p)) h |})
            <$> drop (S k) csv_files = drop (S k) infos) as ->.
  { unfold infos, infos_of. rewrite <- fmap_drop. apply list_fmap_ext.
    intros i q Hq. apply list_elem_of_lookup_2 in Hq. by rewrite Hafter. }
  rewrite total_lines_drop. fold (cumulative infos k). split; lia.
Qed.

Lemma main_row_accounting_witness :
  let folder := sample_folder in
  let h := ASSUME_HEADER default_config in
  let csv_files := list_csv_files folder in
  let infos := infos_of folder h csv_files in
  ∃ rep fs',
    main default_config (fresh_fs folder) = (Ok rep, fs') ∧
    sum_total_lines rep = 10 ∧ sum_cutoff rep = 9 ∧
    sum_before_rows rep = 1 ∧ sum_after_rows rep = 2 ∧
    (∃ (idx : nat) (info : CsvInfo),
       sum_cutoff_file_idx rep = Z.of_nat idx ∧
       infos !! idx = Some info ∧
       sum_total_lines rep = total_lines infos ∧
       1 ≤ sum_cutoff rep ≤ sum_total_lines rep ∧
       sum_before_rows rep = sum_cutoff_line_in_file rep - 1 ∧
       sum_before_rows rep + sum_after_rows rep = data_line_count info ∧
       cumulative infos idx + sum_before_rows rep = sum_cutoff rep - 1 ∧
       sum_after_rows rep + (total_lines infos - cumulative infos (S idx))
         = sum_total_lines rep - sum_cutoff rep + 1) ∧
    ∃ train' val',
      train_dir fs' = Some train' ∧
      val_dir fs' = Some val' ∧
      total_lines (infos_of train' h (training_sent rep))
        = sum_cutoff rep - 1 ∧
      total_lines (infos_of val' h (validation_sent rep))
        = sum_total_lines rep - sum_cutoff rep + 1.
Proof.
  assert (main default_config (fresh_fs sample_folder) = sample_run) as Hrun
    by (vm_compute; reflexivity).
  unfold sample_run in Hrun.
  assert (∀ name : string,
            name ∉ ["a.CSV"; "b.csv"; "c.csv"] →
            name ∉ list_csv_files sample_folder) as Hlist.
  { intros name Hname.
    by replace (list_csv_files sample_folder) with ["a.CSV"; "b.csv"; "c.csv"]
      by (vm_compute; reflexivity). }
  eexists _, _. split; [exact Hrun|].
  split; [reflexivity|]. split; [reflexivity|].
  split; [reflexivity|]. split; [reflexivity|].
  pose proof (main_row_accounting default_config (fresh_fs sample_folder) _
                sample_folder _ eq_refl Hrun) as [Hcounts Hfolders].
  split; [exact Hcounts|].
  apply Hfolders; apply Hlist; intros H;
    repeat (apply elem_of_cons in H as [H|H]; [discriminate H|]);
    by apply elem_of_nil in H.
Defined.

(** A whole run on a folder with at least two data rows and no listed file
    named like a split output: the summary and the three folders. *)
Lemma main_spec cfg fs folder :
  input_folder fs = Some folder →
  let csv_files := list_csv_files folder in
  let total := total_lines (infos_of folder (ASSUME_HEADER cfg) csv_files) in
  2 ≤ total →
  9 * total < 10 * (2 ^ 1024 - 2 ^ 970) →
  (∀ f p, f ∈ csv_files → p ∈ csv_files →
          before_name f ≠ p ∧ after_name f ≠ p) →
  ∃ rep fs' (idx : nat) rows train' val' in',
    main cfg fs = (Ok rep, fs') ∧
    sum_cutoff_file_idx rep = Z.of_nat idx ∧
    csv_files !! idx = Some (sum_cutoff_file rep) ∧
    folder !! sum_cutoff_file rep = Some rows ∧
    train_dir fs' = Some train' ∧
    val_dir fs' = Some val' ∧
    input_folder fs' = Some in' ∧
    let f := sum_cutoff_file rep in
    let header := header_of rows (ASSUME_HEADER cfg) in
    let parts := split_rows (data_rows_of rows (ASSUME_HEADER cfg))
                   (sum_cutoff_line_in_file rep) in
    train' !! before_name f = Some (csv_records header parts.1) ∧
    (∀ q, q ∈ take idx csv_files → train' !! q = folder !! q) ∧
    (∀ q, q ≠ before_name f → q ∉ take idx csv_files →
          train' !! q = default ∅ (train_dir fs) !! q) ∧
    val' !! after_name f = Some (csv_records header parts.2) ∧
    (∀ q, q ∈ drop (S idx) csv_files → val' !! q = folder !! q) ∧
    (∀ q, q ≠ after_name f → q ∉ drop (S idx) csv_files →
          val' !! q = default ∅ (val_dir fs) !! q) ∧
    (∀ q, q ≠ before_name f → q ≠ after_name f → (q ∈ csv_files → q = f) →
          in' !! q = folder !! q) ∧
    (∀ q, q ∈ csv_files → q ≠ f →
          in' !! q = if MOVE_FILES cfg then None else folder !! q) ∧
    in' !! before_name f
      = (if MOVE_FILES cfg then None else Some (csv_records header parts.1)) ∧
    in' !! after_name f
      = (if MOVE_FILES cfg then None else Some (csv_records header parts.2)) ∧
    sum_before_rows rep = Z.of_nat (length parts.1) ∧
    sum_after_rows rep = Z.of_nat (length parts.2).
Proof.
  intros Hin csv_files total Htwo Hfin Hfresh.
  assert (csv_files ≠ []) as Hne.
  { intros Hnil. unfold total in Htwo. rewrite Hnil in Htwo. cbn in Htwo. lia. }
  rewrite (main_unfold cfg fs folder Hin Hne). cbv zeta.
  fold csv_files. fold total.
  destruct (compute_cutoff_range (USE_CEIL_FOR_CUTOFF cfg) total)
    as (cutoff & -> & Hrange & Hpos); [lia..|].
  specialize (Hpos Htwo). clear Hfin.
  destruct (Z.eqb_spec total 0) as [?|_]; [lia|].
  destruct (find_cutoff_location_in_range
              (infos_of folder (ASSUME_HEADER cfg) csv_files) cutoff)
    as (k & info & -> & Hinfo & _); [unfold total in Hrange; lia|].
  destruct (Z.ltb_spec (Z.of_nat k) 0) as [?|_]; [lia|].
  assert (csv_files !! k = Some (path info)) as Hf.
  { rewrite <- (path_infos_of folder (ASSUME_HEADER cfg) csv_files).
    by rewrite list_lookup_fmap, Hinfo. }
  assert (path info ∈ csv_files) as Hmem by by eapply list_elem_of_lookup_2.
  assert (is_Some (folder !! path info)) as [rows Hrows].
  { by apply elem_of_list_csv_files in Hmem as [_ ?]. }
  destruct (split_and_transfer_spec cfg folder fs total cutoff k
              (cutoff - cumulative (infos_of folder (ASSUME_HEADER cfg) csv_files) k)
              (path info) rows Hin Hf Hrows)
    as (rep & fs' & train' & val' & in' & Hrun & Hspec).
  { intros p Hp. by apply Hfresh. }
  fold csv_files in Hrun, Hspec.
  pose proof Hrun as Hrun'.
  apply (split_and_transfer_counts _ _ _ _ _ _ _ folder) in Hrun'
    as (info' & rows' & Hinfo' & Hrows' & Hidx & _ & _ & Hline & Hb & Ha);
    [|done].
  rewrite Hinfo in Hinfo'. injection Hinfo' as <-.
  rewrite Hrows in Hrows'. injection Hrows' as <-.
  pose proof Hrun as Hrun''.
  apply split_and_transfer_inv in Hrun'' as (info'' & Hinfo'' & _ & Hfile & _).
  rewrite Hinfo in Hinfo''. injection Hinfo'' as <-.
  exists rep, fs', k, rows, train', val', in'.
  rewrite Hfile, Hline. split; [done|]. split; [done|].
  split; [done|]. split; [done|].
  destruct Hspec as (? & ? & ? & ? & ? & ? & ? & ? & ? & ? & ? & ? & ?).
  by repeat (split; [done|]).
Qed.

(** X14: what the two output folders hold after a run on a folder with at
    least two data rows and no listed file named like a split output.  The
    training folder holds every file listed before the cutoff file as the
    input folder held it and the before-cutoff output with the header and
    the rows before the cutoff line; the validation folder holds every file
    listed after the cutoff file and the at-or-after output likewise; every
    other file that was in an output folder is still there, unchanged. *)
Theorem main_output_contents cfg fs folder :
  input_folder fs = Some folder →
  let csv_files := list_csv_files folder in
  let total := total_lines (infos_of folder (ASSUME_HEADER cfg) csv_files) in
  2 ≤ total →
  9 * total < 10 * (2 ^ 1024 - 2 ^ 970) →
  (∀ f p, f ∈ csv_files → p ∈ csv_files →
          before_name f ≠ p ∧ after_name f ≠ p) →
  ∃ rep fs' (idx : nat) rows train' val',
    main cfg fs = (Ok rep, fs') ∧
    csv_files !! idx = Some (sum_cutoff_file rep) ∧
    folder !! sum_cutoff_file rep = Some rows ∧
    train_dir fs' = Some train' ∧
    val_dir fs' = Some val' ∧
    let f := sum_cutoff_file rep in
    let header := header_of rows (ASSUME_HEADER cfg) in
    let parts := split_rows (data_rows_of rows (ASSUME_HEADER cfg))
                   (sum_cutoff_line_in_file rep) in
    train' !! before_name f = Some (csv_records header parts.1) ∧
    (∀ q, q ∈ take idx csv_files → train' !! q = folder !! q) ∧
    (∀ q, q ≠ before_name f → q ∉ take idx csv_files →
          train' !! q = default ∅ (train_dir fs) !! q) ∧
    val' !! after_name f = Some (csv_records header parts.2) ∧
    (∀ q, q ∈ drop (S idx) csv_files → val' !! q = folder !! q) ∧
    (∀ q, q ≠ after_name f → q ∉ drop (S idx) csv_files →
          val' !! q = default ∅ (val_dir fs) !! q).
Proof.
  intros Hin csv_files total Htwo Hfin Hfresh.
  destruct (main_spec cfg fs folder Hin Htwo Hfin Hfresh)
    as (rep & fs' & idx & rows & train' & val' & in' & Hrun & _ & Hf & Hrows
        & Ht & Hv & _ & H1 & H2 & H3 & H4 & H5 & H6 & _).
  exists rep, fs', idx, rows, train', val'. by repeat (split; [done|]).
Qed.

(** X15: what the input folder holds after such a run.  The cutoff file is
    still there, unchanged, whether files are copied or moved, and so is
    every file that is not listed.  When files are copied the listed files
    stay and the two outputs stay beside them; when files are moved the
    other listed files and the two outputs are gone. *)
Theorem main_input_afterwards cfg fs folder :
  input_folder fs = Some folder →
  let csv_files := list_csv_files folder in
  let total := total_lines (infos_of folder (ASSUME_HEADER cfg) csv_files) in
  2 ≤ total →
  9 * total < 10 * (2 ^ 1024 - 2 ^ 970) →
  (∀ f p, f ∈ csv_files → p ∈ csv_files →
          before_name f ≠ p ∧ after_name f ≠ p) →
  ∃ rep fs' rows in',
    main cfg fs = (Ok rep, fs') ∧
    folder !! sum_cutoff_file rep = Some rows ∧
    input_folder fs' = Some in' ∧
    let f := sum_cutoff_file rep in
    let header := header_of rows (ASSUME_HEADER cfg) in
    let parts := split_rows (data_rows_of rows (ASSUME_HEADER cfg))
                   (sum_cutoff_line_in_file rep) in
    in' !! f = Some rows ∧
    (∀ q, q ∉ csv_files → q ≠ before_name f → q ≠ after_name f →
          in' !! q = folder !! q) ∧
    (∀ q, q ∈ csv_files → q ≠ f →
          in' !! q = if MOVE_FILES cfg then None else folder !! q) ∧
    in' !! before_name f
      = (if MOVE_FILES cfg then None else Some (csv_records header parts.1)) ∧
    in' !! after_name f
      = (if MOVE_FILES cfg then None else Some (csv_records header parts.2)).
Proof.
  intros Hin csv_files total Htwo Hfin Hfresh.
  destruct (main_spec cfg fs folder Hin Htwo Hfin Hfresh)
    as (rep & fs' & idx & rows & train' & val' & in' & Hrun & _ & Hf & Hrows
        & _ & _ & Hi & _ & _ & _ & _ & _ & _ & H7 & H8 & H9 & H10 & _).
  exists rep, fs', rows, in'.
  split; [done|]. split; [done|]. split; [done|]. cbv zeta.
  assert (sum_cutoff_file rep ∈ csv_files) as Hmem
    by by eapply list_elem_of_lookup_2.
  destruct (Hfresh _ _ Hmem Hmem) as [Hb Ha].
  split; [|split; [|done]].
  - rewrite H7; [done|congruence|congruence|done].
  - intros q Hq Hqb Hqa. by apply H7.
Qed.

(** No file of the sample folder is named like a split output. *)
Ltac sample_names_fresh :=
  let f := fresh "f" in
  let p := fresh "p" in
  let Hf := fresh "Hf" in
  let Hp := fresh "Hp" in
  intros f p Hf Hp;
  replace (list_csv_files sample_folder) with ["a.CSV"; "b.csv"; "c.csv"]
    in Hf, Hp by (vm_compute; reflexivity);
  repeat (apply elem_of_cons in Hf as [->|Hf]);
  try (by apply elem_of_nil in Hf);
  repeat (apply elem_of_cons in Hp as [->|Hp]);
  try (by apply elem_of_nil in Hp);
  split; vm_compute; discriminate.

Lemma main_output_contents_witness :
  let cfg := default_config in
  let fs := fresh_fs sample_folder in
  let folder := sample_folder in
  let csv_files := list_csv_files folder in
  ∃ rep fs' (idx : nat) rows train' val',
    main cfg fs = (Ok rep, fs') ∧
    csv_files !! idx = Some (sum_cutoff_file rep) ∧
    folder !! sum_cutoff_file rep = Some rows ∧
    train_dir fs' = Some train' ∧
    val_dir fs' = Some val' ∧
    let f := sum_cutoff_file rep in
    let header := header_of rows (ASSUME_HEADER cfg) in
    let parts := split_rows (data_rows_of rows (ASSUME_HEADER cfg))
                   (sum_cutoff_line_in_file rep) in
    train' !! before_name f = Some (csv_records header parts.1) ∧
    (∀ q, q ∈ take idx csv_files → train' !! q = folder !! q) ∧
    (∀ q, q ≠ before_name f → q ∉ take idx csv_files →
          train' !! q = default ∅ (train_dir fs) !! q) ∧
    val' !! after_name f = Some (csv_records header parts.2) ∧
    (∀ q, q ∈ drop (S idx) csv_files → val' !! q = folder !! q) ∧
    (∀ q, q ≠ after_name f → q ∉ drop (S idx) csv_files →
          val' !! q = default ∅ (val_dir fs) !! q).
Proof.
  apply (main_output_contents default_config (fresh_fs sample_folder)
           sample_folder).
  - reflexivity.
  - vm_compute. discriminate.
  - vm_compute. reflexivity.
  - sample_names_fresh.
Defined.

Lemma main_input_afterwards_witness :
  let cfg := move_config in
  let fs := fresh_fs sample_folder in
  let folder := sample_folder in
  let csv_files := list_csv_files folder in
  ∃ rep fs' rows in',
    main cfg fs = (Ok rep, fs') ∧
    folder !! sum_cutoff_file rep = Some rows ∧
    input_folder fs' = Some in' ∧
    let f := sum_cutoff_file rep in
    let header := header_of rows (ASSUME_HEADER cfg) in
    let parts := split_rows (data_rows_of rows (ASSUME_HEADER cfg))
                   (sum_cutoff_line_in_file rep) in
    in' !! f = Some rows ∧
    (∀ q, q ∉ csv_files → q ≠ before_name f → q ≠ after_name f →
          in' !! q = folder !! q) ∧
    (∀ q, q ∈ csv_files → q ≠ f →
          in' !! q = if MOVE_FILES cfg then None else folder !! q) ∧
    in' !! before_name f
      = (if MOVE_FILES cfg then None else Some (csv_records header parts.1)) ∧
    in' !! after_name f
      = (if MOVE_FILES cfg then None else Some (csv_records header parts.2)).
Proof.
  apply (main_input_afterwards move_config (fresh_fs sample_folder)
           sample_folder).
  - reflexivity.
  - vm_compute. discriminate.
  - vm_compute. reflexivity.
  - sample_names_fresh.
Defined.

(** *** The names of the outputs *)

Lemma rfind_dot_app (s t : string) (i : nat) :
  rfind_dot t = Some i →
  rfind_dot (s +:+ t) = Some (String.length s + i)%nat.
Proof.
  intros Ht. induction s as [|c s IH]; [done|].
  change (String c s +:+ t) with (String c (s +:+ t)).
  cbn [rfind_dot String.length]. by rewrite IH.
Qed.

Lemma string_length_app (s t : string) :
  String.length (s +:+ t) = (String.length s + String.length t)%nat.
Proof.
  induction s as [|c s IH]; [done|].
  change (String c s +:+ t) with (String c (s +:+ t)).
  cbn [String.length]. by rewrite IH.
Qed.

Lemma substring_app_skip (s t : string) (i n : nat) :
  substring (String.length s + i) n (s +:+ t) = substring i n t.
Proof.
  induction s as [|c s IH]; [done|].
  change (String c s +:+ t) with (String c (s +:+ t)).
  cbn [String.length Nat.add substring]. exact IH.
Qed.

(** A name made of a stem and [t] has the suffix [.csv] when [t] has its
    last dot four characters before its end, followed by [csv]. *)
Lemma is_csv_app (s t : string) (i : nat) :
  rfind_dot t = Some i →
  (0 < i)%nat →
  String.length t = (i + 4)%nat →
  lower (substring i 4 t) = ".csv" →
  is_csv (s +:+ t) = true.
Proof.
  intros Hdot Hi Hlen Hsuf. unfold is_csv, suffix, suffix_start.
  rewrite (rfind_dot_app s t i Hdot), string_length_app, Hlen.
  destruct (Nat.ltb_spec 0 (String.length s + i)); [|lia].
  destruct (Nat.ltb_spec (String.length s + i)
              (String.length s + (i + 4) - 1)); [|lia].
  cbn [andb].
  replace (String.length s + (i + 4) - (String.length s + i))%nat
    with 4%nat by lia.
  rewrite substring_app_skip. by apply bool_decide_eq_true.
Qed.

Lemma before_name_is_csv (f : string) : is_csv (before_name f) = true.
Proof.
  unfold before_name.
  apply (is_csv_app _ "_before_cutoff.csv" 14); [reflexivity|lia|reflexivity..].
Qed.

Lemma after_name_is_csv (f : string) : is_csv (after_name f) = true.
Proof.
  unfold after_name.
  apply (is_csv_app _ "_at_or_after_cutoff.csv" 19);
    [reflexivity|lia|reflexivity..].
Qed.

Lemma total_lines_Permutation (l1 l2 : list CsvInfo) :
  l1 ≡ₚ l2 → total_lines l1 = total_lines l2.
Proof.
  induction 1 as [|x l1 l2 _ IH|x y l|l1 l2 l3 _ IH1 _ IH2];
    rewrite ?total_lines_cons; lia.
Qed.

(** X16: the outputs are [.csv] files themselves.  After a run that copies
    (on a folder with at least two data rows and no listed file named like
    a split output) the input folder lists its former [.csv] files and the
    two outputs, so that counting it again finds the data rows of the
    cutoff file twice. *)
Theorem main_copy_lists_outputs cfg fs folder :
  MOVE_FILES cfg = false →
  input_folder fs = Some folder →
  let csv_files := list_csv_files folder in
  let total := total_lines (infos_of folder (ASSUME_HEADER cfg) csv_files) in
  2 ≤ total →
  9 * total < 10 * (2 ^ 1024 - 2 ^ 970) →
  (∀ f p, f ∈ csv_files → p ∈ csv_files →
          before_name f ≠ p ∧ after_name f ≠ p) →
  ∃ rep fs' in',
    main cfg fs = (Ok rep, fs') ∧
    input_folder fs' = Some in' ∧
    (∀ p, p ∈ list_csv_files in'
          ↔ p ∈ csv_files ∨ p = before_name (sum_cutoff_file rep)
            ∨ p = after_name (sum_cutoff_file rep)) ∧
    total_lines (infos_of in' (ASSUME_HEADER cfg) (list_csv_files in'))
      = total + sum_before_rows rep + sum_after_rows rep.
Proof.
  intros Hcopy Hin csv_files total Htwo Hfin Hfresh.
  destruct (main_spec cfg fs folder Hin Htwo Hfin Hfresh)
    as (rep & fs' & idx & rows & train' & val' & in' & Hrun & Hidx & Hf & Hrows
        & _ & _ & Hi & _ & _ & _ & _ & _ & _ & H7 & H8 & H9 & H10 & Hb & Ha).
  cbv zeta in *. rewrite Hcopy in H8, H9, H10.
  set (f := sum_cutoff_file rep) in *.
  set (h := ASSUME_HEADER cfg) in *.
  set (line := sum_cutoff_line_in_file rep) in *.
  assert (f ∈ csv_files) as Hmem by by eapply list_elem_of_lookup_2.
  assert (∀ q, q ∈ csv_files → q ≠ before_name f ∧ q ≠ after_name f) as Hlisted.
  { intros q Hq. destruct (Hfresh f q Hmem Hq). split; congruence. }
  pose proof (before_after_name_ne f) as Hba.
  assert (∀ q, q ≠ before_name f → q ≠ after_name f →
               in' !! q = folder !! q) as Hsame.
  { intros q Hqb Hqa. destruct (decide (q ∈ csv_files ∧ q ≠ f)) as [[? ?]|Hn].
    - by apply H8.
    - apply H7; [done..|]. intros Hq.
      destruct (decide (q = f)); [done|]. by destruct Hn. }
  assert (∀ p, p ∈ list_csv_files in'
               ↔ p ∈ csv_files ∨ p = before_name f ∨ p = after_name f) as Hlist.
  { intros p. unfold csv_files. rewrite !elem_of_list_csv_files. split.
    - intros [Hcsv Hp].
      destruct (decide (p = before_name f)); [by eauto|].
      destruct (decide (p = after_name f)); [by eauto|].
      left. by rewrite <- Hsame.
    - intros [[Hcsv Hp]|[->| ->]].
      + assert (p ∈ csv_files) as Hq by by apply elem_of_list_csv_files.
        destruct (Hlisted p Hq). by rewrite Hsame.
      + split; [apply before_name_is_csv|]. by rewrite H9.
      + split; [apply after_name_is_csv|]. by rewrite H10. }
  exists rep, fs', in'. split; [done|]. split; [done|]. split; [done|].
  assert (list_csv_files in' ≡ₚ before_name f :: after_name f :: csv_files)
    as Hperm.
  { apply NoDup_Permutation.
    - apply NoDup_list_csv_files.
    - apply NoDup_cons. split.
      + rewrite elem_of_cons. intros [?|Hq]; [done|].
        by destruct (Hlisted _ Hq).
      + apply NoDup_cons. split; [|apply NoDup_list_csv_files].
        intros Hq. by destruct (Hlisted _ Hq).
    - intros p. rewrite Hlist, !elem_of_cons. tauto. }
  rewrite (total_lines_Permutation _
             (infos_of in' h (before_name f :: after_name f :: csv_files)));
    [|unfold infos_of; by apply fmap_Permutation].
  unfold infos_of at 1. rewrite !fmap_cons, !total_lines_cons.
  cbn [data_line_count]. rewrite H9, H10. cbn [default id].
  rewrite !count_rows_data, !data_rows_of_written, Hb, Ha.
  assert ((λ p, {| path := p;
                   data_line_count := count_rows (default [] (in' !! p)) h |})
            <$> csv_files = infos_of folder h csv_files) as ->.
  { unfold infos_of. apply list_fmap_ext. intros i p Hp.
    apply list_elem_of_lookup_2 in Hp. destruct (Hlisted p Hp).
    by rewrite Hsame. }
  fold total. destruct rows as [|r rows]; [|lia].
  assert (split_rows (data_rows_of [] h) line = ([], [])) as ->.
  { unfold split_rows, slice_to, slice_from. cbn [data_rows_of].
    by rewrite take_nil, drop_nil. }
  cbn. lia.
Qed.

Lemma main_copy_lists_outputs_witness :
  let cfg := default_config in
  let fs := fresh_fs sample_folder in
  let csv_files := list_csv_files sample_folder in
  let total := total_lines (infos_of sample_folder (ASSUME_HEADER cfg) csv_files) in
  ∃ rep fs' in',
    main cfg fs = (Ok rep, fs') ∧
    input_folder fs' = Some in' ∧
    (∀ p, p ∈ list_csv_files in'
          ↔ p ∈ csv_files ∨ p = before_name (sum_cutoff_file rep)
            ∨ p = after_name (sum_cutoff_file rep)) ∧
    total_lines (infos_of in' (ASSUME_HEADER cfg) (list_csv_files in'))
      = total + sum_before_rows rep + sum_after_rows rep.
Proof.
  apply (main_copy_lists_outputs default_config (fresh_fs sample_folder)
           sample_folder).
  - reflexivity.
  - reflexivity.
  - vm_compute. discriminate.
  - vm_compute. reflexivity.
  - sample_names_fresh.
Defined.

End contents.
